(** * ClickUp MCP server: the HTTP client and the tool dispatcher

    A shallow embedding of [src/api/client.ts] (class [ClickUpClient]) and of
    the [CallToolRequestSchema] handler of the server entry point.

    - JavaScript values are an untyped sum ([value]); objects are association
      lists in property (insertion) order, as [Object.entries] and
      [JSON.stringify] observe them.
    - Asynchronous code is a tree of effects ([Prog]): [Fetch] is one call of
      the platform's [fetch], [All] is one [Promise.all], [Throw] a rejection.
    - The network is an oracle from requests to outcomes; the completion order
      of parallel promises is an oracle too. *)

From Stdlib Require Import ZArith String Ascii List Lia.
From stdpp Require Import base list strings pretty.

Set Warnings "-register-all".
Local Open Scope Z_scope.

(** ** JavaScript values and the platform operations the code relies on *)

Module Js.

(** Numbers are integers (identifiers, pages, epoch milliseconds, HTTP status
    codes); strings are byte strings. *)
Inductive value : Type :=
| VUndef
| VNull
| VBool (b : bool)
| VNum (n : Z)
| VStr (s : string)
| VArr (l : list value)
| VObj (o : list (string * value)).

Definition obj : Type := list (string * value).

(** An exception object: [new Error(message)], a [TypeError], ... *)
Record JsError : Type := mkError { err_name : string; err_message : string }.

Definition Error (msg : string) : JsError := mkError "Error" msg.
Definition TypeError (msg : string) : JsError := mkError "TypeError" msg.

Definition dq : string := String (ascii_of_N 34) EmptyString.
Definition nl : string := String (ascii_of_N 10) EmptyString.

(** ToBoolean *)
Definition truthy (v : value) : bool :=
  match v with
  | VUndef | VNull => false
  | VBool b => b
  | VNum n => negb (n =? 0)
  | VStr s => negb (String.eqb s "")
  | VArr _ | VObj _ => true
  end.

(** [v !== undefined] *)
Definition defined (v : value) : bool :=
  match v with VUndef => false | _ => true end.

(** [v !== undefined && v !== null] *)
Definition non_nullish (v : value) : bool :=
  match v with VUndef | VNull => false | _ => true end.

(** [a ?? b] *)
Definition nullish_or (a b : value) : value :=
  if non_nullish a then a else b.

(** [a || b] *)
Definition or_else (a b : value) : value :=
  if truthy a then a else b.

(** ToString, as [String(v)] and template literals apply it. An array is its
    elements joined by commas, [null] and [undefined] elements being empty. *)
Fixpoint to_string (v : value) : string :=
  match v with
  | VUndef => "undefined"
  | VNull => "null"
  | VBool b => if b then "true" else "false"
  | VNum n => pretty n
  | VStr s => s
  | VArr l =>
      (fix join (l : list value) : string :=
         match l with
         | [] => ""
         | x :: rest =>
             let e := match x with VUndef | VNull => "" | _ => to_string x end in
             match rest with
             | [] => e
             | _ :: _ => e +:+ "," +:+ join rest
             end
         end) l
  | VObj _ => "[object Object]"
  end.

(** Own property lookup; [get] is the read [v.k] on a receiver that is not
    [null] or [undefined]. *)
Fixpoint lookup_prop (k : string) (o : obj) : option value :=
  match o with
  | [] => None
  | (k', v) :: o' => if String.eqb k' k then Some v else lookup_prop k o'
  end.

Definition get (v : value) (k : string) : value :=
  match v with
  | VObj o => match lookup_prop k o with Some x => x | None => VUndef end
  | _ => VUndef
  end.

(** [o.k = v]: an existing property keeps its place, a new one goes last. *)
Fixpoint set_prop (k : string) (v : value) (o : obj) : obj :=
  match o with
  | [] => [(k, v)]
  | (k', v') :: o' =>
      if String.eqb k' k then (k, v) :: o' else (k', v') :: set_prop k v o'
  end.

Definition has_key (k : string) (o : obj) : bool :=
  match lookup_prop k o with Some _ => true | None => false end.

Definition keys (o : obj) : list string := map fst o.

Fixpoint indexed (i : nat) (l : list value) : obj :=
  match l with
  | [] => []
  | x :: r => (pretty i, x) :: indexed (S i) r
  end.

Fixpoint chars (s : string) : list value :=
  match s with
  | EmptyString => []
  | String c r => VStr (String c EmptyString) :: chars r
  end.

(** The own enumerable properties, as [Object.entries(v)] and the spread
    [{...v}] enumerate them. *)
Definition own_props (v : value) : obj :=
  match v with
  | VObj o => o
  | VArr l => indexed 0 l
  | VStr s => indexed 0 (chars s)
  | _ => []
  end.

(** [{...v, k1: v1, ..., kn: vn}] *)
Definition spread_with (v : value) (kvs : obj) : obj :=
  fold_left (fun o kv => set_prop (fst kv) (snd kv) o) kvs (own_props v).

(** SameValueZero, the equality of [Set.prototype.has]: primitives by value,
    objects by identity; two objects out of parsed JSON are never the same
    object. *)
Definition same_value_zero (a b : value) : bool :=
  match a, b with
  | VUndef, VUndef => true
  | VNull, VNull => true
  | VBool x, VBool y => Bool.eqb x y
  | VNum x, VNum y => x =? y
  | VStr x, VStr y => String.eqb x y
  | _, _ => false
  end.

Definition set_has (s : list value) (v : value) : bool :=
  existsb (same_value_zero v) s.

(** *** JSON.stringify *)

Definition hex_digit (n : N) : string :=
  String (ascii_of_N (if (n <? 10)%N then 48 + n else 87 + n)%N) EmptyString.

Definition escape_char (c : ascii) : string :=
  let n := N_of_ascii c in
  if (n =? 34)%N then "\" +:+ dq
  else if (n =? 92)%N then "\\"
  else if (n =? 8)%N then "\b"
  else if (n =? 12)%N then "\f"
  else if (n =? 10)%N then "\n"
  else if (n =? 13)%N then "\r"
  else if (n =? 9)%N then "\t"
  else if (n <? 32)%N then "\u00" +:+ hex_digit (n / 16) +:+ hex_digit (n mod 16)
  else String c EmptyString.

Fixpoint escape (s : string) : string :=
  match s with
  | EmptyString => EmptyString
  | String c r => escape_char c +:+ escape r
  end.

(** QuoteJSONString *)
Definition quote (s : string) : string := dq +:+ escape s +:+ dq.

Fixpoint join (sep : string) (l : list string) : string :=
  match l with
  | [] => ""
  | [x] => x
  | x :: r => x +:+ sep +:+ join sep r
  end.

Definition is_empty (s : string) : bool := String.eqb s "".

(** The common tail of SerializeJSONObject and SerializeJSONArray. *)
Definition wrap (opening closing gap stepback indent : string)
    (partial : list string) : string :=
  match partial with
  | [] => opening +:+ closing
  | _ :: _ =>
      if is_empty gap then opening +:+ join "," partial +:+ closing
      else opening +:+ nl +:+ indent
             +:+ join ("," +:+ nl +:+ indent) partial
             +:+ nl +:+ stepback +:+ closing
  end.

(** SerializeJSONProperty: [None] is [undefined]. A property whose value is
    [undefined] is left out of an object; in an array it is written [null]. *)
Fixpoint serialize (gap indent : string) (v : value) : option string :=
  match v with
  | VUndef => None
  | VNull => Some "null"
  | VBool b => Some (if b then "true" else "false")
  | VNum n => Some (pretty n)
  | VStr s => Some (quote s)
  | VArr l =>
      let inner := indent +:+ gap in
      Some (wrap "[" "]" gap indent inner
              ((fix elems (l : list value) : list string :=
                  match l with
                  | [] => []
                  | x :: r =>
                      match serialize gap inner x with
                      | Some s => s
                      | None => "null"
                      end :: elems r
                  end) l))
  | VObj o =>
      let inner := indent +:+ gap in
      Some (wrap "{" "}" gap indent inner
              ((fix members (o : obj) : list string :=
                  match o with
                  | [] => []
                  | (k, x) :: r =>
                      match serialize gap inner x with
                      | Some s =>
                          (quote k +:+ ":" +:+ (if is_empty gap then "" else " ") +:+ s)
                            :: members r
                      | None => members r
                      end
                  end) o))
  end.

(** [JSON.stringify(v)] and [JSON.stringify(v, null, 2)] *)
Definition JSON_stringify (v : value) : option string := serialize "" "" v.
Definition JSON_stringify_2 (v : value) : option string := serialize "  " "" v.

(** A string, or [undefined], as a value. *)
Definition of_opt_string (s : option string) : value :=
  match s with Some s => VStr s | None => VUndef end.

End Js.

(** ** Asynchronous programs over [fetch] and [Promise.all] *)

Module Async.
Import Js.

(** What [fetch(url.toString(), options)] is called with. [req_url] is the
    string handed to [new URL], [req_searchParams] the name-value pairs
    appended to [url.searchParams], in order. *)
Record Request : Type := mkRequest {
  req_method : string;
  req_url : string;
  req_searchParams : list (string * string);
  req_headers : list (string * string);
  req_body : option string
}.

(** A settled promise. *)
Inductive Settled (A : Type) : Type :=
| Fulfilled (a : A)
| Rejected (e : JsError).
Arguments Fulfilled {A} a.
Arguments Rejected {A} e.

(** What the code reads off a [Response]: [resp_json] is the outcome of
    [response.json()], rejected when the body is not JSON. *)
Record Response : Type := mkResponse {
  resp_status : Z;
  resp_statusText : string;
  resp_json : Settled value
}.

(** [response.ok]: the status is in the range 200-299. *)
Definition resp_ok (r : Response) : bool :=
  (200 <=? resp_status r) && (resp_status r <=? 299).

(** [fetch] rejects (no response at all), or resolves with a response. *)
Inductive FetchOutcome : Type :=
| NetworkError (e : JsError)
| Responded (r : Response).

(** An asynchronous computation: it returns, throws, awaits one [fetch], or
    awaits [Promise.all] of computations started together. *)
Inductive Prog (A : Type) : Type :=
| Ret (a : A)
| Throw (e : JsError)
| Fetch (req : Request) (k : FetchOutcome -> Prog A)
| All (tasks : list (Prog value)) (k : Settled (list value) -> Prog A).
Arguments Ret {A} a.
Arguments Throw {A} e.
Arguments Fetch {A} req k.
Arguments All {A} tasks k.

Fixpoint bind {A B : Type} (p : Prog A) (f : A -> Prog B) : Prog B :=
  match p with
  | Ret a => f a
  | Throw e => Throw e
  | Fetch req k => Fetch req (fun out => bind (k out) f)
  | All tasks k => All tasks (fun out => bind (k out) f)
  end.

Notation "'let*' x ':=' p 'in' q" := (bind p (fun x => q))
  (at level 10, x name, p at level 100, q at level 200).

(** [try { p } catch (e) { h e }] *)
Fixpoint try_catch {A : Type} (p : Prog A) (h : JsError -> Prog A) : Prog A :=
  match p with
  | Ret a => Ret a
  | Throw e => h e
  | Fetch req k => Fetch req (fun out => try_catch (k out) h)
  | All tasks k => All tasks (fun out => try_catch (k out) h)
  end.

(** [await Promise.all(tasks)] *)
Definition promise_all (tasks : list (Prog value)) : Prog (list value) :=
  All tasks (fun out =>
    match out with
    | Fulfilled vs => Ret vs
    | Rejected e => Throw e
    end).

(** The member read [v.k]: a [TypeError] on [null] and [undefined]. *)
Definition prop (v : value) (k : string) : Prog value :=
  match v with
  | VUndef | VNull =>
      Throw (TypeError ("Cannot read properties of " +:+ to_string v
                          +:+ " (reading '" +:+ k +:+ "')"))
  | _ => Ret (get v k)
  end.

(** The binding [const { k } = v]. *)
Definition destructure (v : value) (k : string) : Prog value :=
  match v with
  | VUndef | VNull =>
      Throw (TypeError ("Cannot destructure property '" +:+ k +:+ "' of "
                          +:+ to_string v))
  | _ => Ret (get v k)
  end.

(** The receiver of [.map], [.flatMap] or [.filter] must be an array. *)
Definition as_array (method : string) (v : value) : Prog (list value) :=
  match v with
  | VArr l => Ret l
  | VUndef | VNull =>
      Throw (TypeError ("Cannot read properties of " +:+ to_string v
                          +:+ " (reading '" +:+ method +:+ "')"))
  | _ => Throw (TypeError (method +:+ " is not a function"))
  end.

(** [l.map(f)] for a callback that may throw. *)
Fixpoint map_sync {A B : Type} (f : A -> Prog B) (l : list A) : Prog (list B) :=
  match l with
  | [] => Ret []
  | x :: r =>
      let* y := f x in
      let* ys := map_sync f r in
      Ret (y :: ys)
  end.

(** [l.filter(f)] for a callback that may throw. *)
Fixpoint filter_sync {A : Type} (f : A -> Prog bool) (l : list A) : Prog (list A) :=
  match l with
  | [] => Ret []
  | x :: r =>
      let* b := f x in
      let* ys := filter_sync f r in
      Ret (if b : bool then x :: ys else ys)
  end.

(** *** Running a program against the network *)

(** [Promise.all] keeps an array of values and writes each fulfilled value at
    the index of its promise, whenever it settles; the first rejection rejects
    the whole. [order] lists indices in the order the promises settle. *)
Fixpoint settle (order : list nat) (outs : list (Settled value))
    (slots : list (option value)) : Settled (list (option value)) :=
  match order with
  | [] => Fulfilled slots
  | i :: rest =>
      match outs !! i with
      | Some (Rejected e) => Rejected e
      | Some (Fulfilled v) => settle rest outs (<[i := Some v]> slots)
      | None => settle rest outs slots
      end
  end.

(** Every promise settles: those [order] does not name settle after the ones
    it names, by index. *)
Definition settle_all (order : list nat) (outs : list (Settled value))
    : Settled (list value) :=
  match settle (order ++ seq 0 (length outs)) outs
               (replicate (length outs) None) with
  | Rejected e => Rejected e
  | Fulfilled slots => Fulfilled (omap id slots)
  end.

(** [slots] holds, at some indices, the value of the promise of that index. *)
Definition partial_fill (vs : list value) (slots : list (option value)) : Prop :=
  length slots = length vs
  /\ forall i x, slots !! i = Some (Some x) -> vs !! i = Some x.

Section Run.
(** The network, and the order in which parallel promises settle. *)
Variable fetch : Request -> FetchOutcome.
Variable completion : list (Settled value) -> list nat.

Fixpoint run {A : Type} (p : Prog A) : Settled A :=
  match p with
  | Ret a => Fulfilled a
  | Throw e => Rejected e
  | Fetch req k => run (k (fetch req))
  | All tasks k =>
      let outs := map (fun t => run t) tasks in
      run (k (settle_all (completion outs) outs))
  end.
End Run.

End Async.

(** ** [src/api/client.ts]: class [ClickUpClient] *)

Module Client.
Import Js Async.

Definition baseUrl : string := "https://api.clickup.com/api/v2".

(** The loop of [request] over [Object.entries(queryParams)]: the pairs it
    appends to [url.searchParams]. *)
Definition append_param (kv : string * value) : list (string * string) :=
  let '(key, value) := kv in
  if non_nullish value then
    match value with
    | VArr l => map (fun v => (key +:+ "[]", to_string v)) l
    | _ => [(key, to_string value)]
    end
  else [].

Definition searchParams (queryParams : value) : list (string * string) :=
  if truthy queryParams then flat_map append_param (own_props queryParams)
  else [].

(** The message of the error [request] throws when [response.ok] is false. *)
Definition api_error_message (r : Response) (responseData : value) : string :=
  "ClickUp API error: " +:+ to_string (VNum (resp_status r)) +:+ " "
    +:+ resp_statusText r +:+ nl
    +:+ to_string (of_opt_string (JSON_stringify_2 responseData)).

Section WithToken.
Variable apiToken : string.

Definition request (method path : string) (body queryParams : value)
    : Prog value :=
  Fetch
    {| req_method := method;
       req_url := baseUrl +:+ path;
       req_searchParams := searchParams queryParams;
       req_headers := [("Authorization", apiToken);
                       ("Content-Type", "application/json")];
       req_body := if truthy body then JSON_stringify body else None |}
    (fun out =>
       match out with
       | NetworkError e => Throw e
       | Responded response =>
           match resp_json response with
           | Rejected e => Throw e
           | Fulfilled responseData =>
               if negb (resp_ok response)
               then Throw (Error (api_error_message response responseData))
               else Ret responseData
           end
       end).

(** *** Task operations *)

Definition createTask (listId task : value) : Prog value :=
  request "POST" ("/list/" +:+ to_string listId +:+ "/task") task VUndef.

Definition getTask (taskId : value) : Prog value :=
  request "GET" ("/task/" +:+ to_string taskId) VUndef VUndef.

Definition updateTask (taskId updates : value) : Prog value :=
  request "PUT" ("/task/" +:+ to_string taskId) updates VUndef.

Definition deleteTask (taskId : value) : Prog value :=
  request "DELETE" ("/task/" +:+ to_string taskId) VUndef VUndef.

(** [params?.k] is [get params k]: [undefined] when [params] is nullish. *)
Definition listTasks_queryParams (params : value) : value :=
  VObj (spread_with params
          [("archived", nullish_or (get params "archived") (VBool false));
           ("page", nullish_or (get params "page") (VNum 0));
           ("include_closed",
            nullish_or (get params "include_closed") (VBool false))]).

Definition listTasks (listId params : value) : Prog value :=
  request "GET" ("/list/" +:+ to_string listId +:+ "/task") VUndef
    (listTasks_queryParams params).

Definition searchTasks_queryParams (params : value) : Prog value :=
  let* page := prop params "page" in
  let* include_closed := prop params "include_closed" in
  Ret (VObj (spread_with params
               [("page", nullish_or page (VNum 0));
                ("include_closed", nullish_or include_closed (VBool false))])).

Definition searchTasks (teamId params : value) : Prog value :=
  let* queryParams := searchTasks_queryParams params in
  request "GET" ("/team/" +:+ to_string teamId +:+ "/task") VUndef queryParams.

(** *** Comment operations *)

Definition createComment (taskId comment : value) : Prog value :=
  request "POST" ("/task/" +:+ to_string taskId +:+ "/comment") comment VUndef.

Definition getComments (taskId : value) : Prog value :=
  request "GET" ("/task/" +:+ to_string taskId +:+ "/comment") VUndef VUndef.

Definition updateComment (commentId commentText resolved : value) : Prog value :=
  request "PUT" ("/comment/" +:+ to_string commentId)
    (VObj [("comment_text", commentText); ("resolved", resolved)]) VUndef.

Definition deleteComment (commentId : value) : Prog value :=
  request "DELETE" ("/comment/" +:+ to_string commentId) VUndef VUndef.

(** *** Dependency operations *)

Definition addDependency (taskId dependency : value) : Prog value :=
  request "POST" ("/task/" +:+ to_string taskId +:+ "/dependency")
    dependency VUndef.

Definition deleteDependency (taskId params : value) : Prog value :=
  request "DELETE" ("/task/" +:+ to_string taskId +:+ "/dependency")
    VUndef params.

Definition getTaskWithDependencies (taskId : value) : Prog value :=
  getTask taskId.

(** *** Workspace operations *)

Definition getAuthorizedTeams : Prog value :=
  request "GET" "/team" VUndef VUndef.

Definition getSpaces (teamId : value) : Prog value :=
  request "GET" ("/team/" +:+ to_string teamId +:+ "/space") VUndef VUndef.

Definition getLists (spaceId : value) : Prog value :=
  request "GET" ("/space/" +:+ to_string spaceId +:+ "/list") VUndef VUndef.

Definition getFolderLists (folderId : value) : Prog value :=
  request "GET" ("/folder/" +:+ to_string folderId +:+ "/list") VUndef VUndef.

(** [archived] has the default value [false]. *)
Definition getFolders (spaceId archived : value) : Prog value :=
  let archived := if defined archived then archived else VBool false in
  try_catch
    (request "GET" ("/space/" +:+ to_string spaceId +:+ "/folder") VUndef
       (VObj [("archived", archived)]))
    (fun _ => Ret (VObj [("folders", VArr [])])).

Definition getFolderlessLists (spaceId : value) : Prog value :=
  request "GET" ("/space/" +:+ to_string spaceId +:+ "/list") VUndef
    (VObj [("archived", VBool false)]).

(** [list => ({ id: list.id, name: list.name })] *)
Definition id_and_name (list : value) : Prog value :=
  let* id := prop list "id" in
  let* name := prop list "name" in
  Ret (VObj [("id", id); ("name", name)]).

(** [(folder.lists || [])], the receiver of [.map] *)
Definition lists_of_folder (folder : value) : Prog (list value) :=
  let* lists := prop folder "lists" in
  as_array "map" (or_else lists (VArr [])).

(** [folder => ({ id, name, lists: (folder.lists || []).map(...) })] *)
Definition folder_with_lists (folder : value) : Prog value :=
  let* id := prop folder "id" in
  let* name := prop folder "name" in
  let* lists := lists_of_folder folder in
  let* reduced := map_sync id_and_name lists in
  Ret (VObj [("id", id); ("name", name); ("lists", VArr reduced)]).

(** [folder => (folder.lists || []).map(list => list.id)] *)
Definition list_ids_of_folder (folder : value) : Prog (list value) :=
  let* lists := lists_of_folder folder in
  map_sync (fun list => prop list "id") lists.

(** The body of [spaces.map(async space => ...)]. *)
Definition space_with_folders_and_lists (space : value) : Prog value :=
  let* spaceId := prop space "id" in
  let* foldersResponse := getFolders spaceId VUndef in
  let* folders := destructure foldersResponse "folders" in
  let* folderArray := as_array "map" folders in
  let* foldersWithLists := map_sync folder_with_lists folderArray in
  let* listsResponse := getLists spaceId in
  let* allSpaceLists := destructure listsResponse "lists" in
  let* idsPerFolder := map_sync list_ids_of_folder folderArray in
  let listsInFolders := concat idsPerFolder in
  let* allArray := as_array "filter" allSpaceLists in
  let* folderlessLists :=
    filter_sync
      (fun list =>
         let* id := prop list "id" in
         Ret (negb (set_has listsInFolders id)))
      allArray in
  Ret (VObj (spread_with space
               [("folders", VArr foldersWithLists);
                ("lists", VArr folderlessLists)])).

(** The body of [teams.map(async team => ...)]. *)
Definition team_with_spaces (team : value) : Prog value :=
  let* teamId := prop team "id" in
  let* spacesResponse := getSpaces teamId in
  let* spaces := destructure spacesResponse "spaces" in
  let* spaceArray := as_array "map" spaces in
  let* spacesWithFoldersAndLists :=
    promise_all (map space_with_folders_and_lists spaceArray) in
  Ret (VObj (spread_with team [("spaces", VArr spacesWithFoldersAndLists)])).

Definition getWorkspaceStructure : Prog value :=
  let* teamsResponse := getAuthorizedTeams in
  let* teams := destructure teamsResponse "teams" in
  let* teamArray := as_array "map" teams in
  let* result := promise_all (map team_with_spaces teamArray) in
  Ret (VObj [("teams", VArr result)]).

End WithToken.

End Client.

(** ** The server entry point: the [CallToolRequestSchema] handler *)

Module Server.
Import Js Async Client.

(** [{ content: [{ type: 'text', text }] }] *)
Definition text_result (text : value) : value :=
  VObj [("content", VArr [VObj [("type", VStr "text"); ("text", text)]])].

(** What the [catch] clause of the handler returns. *)
Definition error_result (error : JsError) : value :=
  VObj [("content",
         VArr [VObj [("type", VStr "text");
                     ("text", VStr ("Error: " +:+ err_message error))]]);
        ("isError", VBool true)].

(** [JSON.stringify(v, null, 2)] as the [text] of a result. *)
Definition pretty_json (v : value) : value := of_opt_string (JSON_stringify_2 v).

(** [if (typedArgs.k !== undefined) updates.k = typedArgs.k;] *)
Definition copy_defined (typedArgs : value) (k : string) (updates : obj) : obj :=
  if defined (get typedArgs k) then set_prop k (get typedArgs k) updates
  else updates.

(** The block that folds [k_add] and [k_rem] into [updates.k = {add, rem}]. *)
Definition collapse_add_rem (typedArgs : value) (k : string) (updates : obj) : obj :=
  let add := get typedArgs (k +:+ "_add") in
  let rem := get typedArgs (k +:+ "_rem") in
  if truthy (or_else add rem) then
    let inner := [] in
    let inner := if truthy add then set_prop "add" add inner else inner in
    let inner := if truthy rem then set_prop "rem" rem inner else inner in
    set_prop k (VObj inner) updates
  else updates.

(** The object [updates] that case 'clickup_update_task' builds. *)
Definition update_task_updates (typedArgs : value) : obj :=
  let updates := [] in
  let updates := copy_defined typedArgs "name" updates in
  let updates := copy_defined typedArgs "description" updates in
  let updates := copy_defined typedArgs "markdown_description" updates in
  let updates := copy_defined typedArgs "status" updates in
  let updates := copy_defined typedArgs "priority" updates in
  let updates := copy_defined typedArgs "due_date" updates in
  let updates := copy_defined typedArgs "time_estimate" updates in
  let updates := copy_defined typedArgs "archived" updates in
  let updates := collapse_add_rem typedArgs "assignees" updates in
  let updates := collapse_add_rem typedArgs "tags" updates in
  updates.

(** The object [searchParams] that case 'clickup_search_tasks' starts from. *)
Definition search_params (typedArgs : value) : obj :=
  [("query", get typedArgs "query");
   ("page", get typedArgs "page");
   ("include_closed", get typedArgs "include_closed");
   ("assignees", get typedArgs "assignees");
   ("statuses", get typedArgs "statuses");
   ("tags", get typedArgs "tags");
   ("due_date_gt", get typedArgs "due_date_gt");
   ("due_date_lt", get typedArgs "due_date_lt")].

Section WithToken.
Variable apiToken : string.

Definition create_task (typedArgs : value) : Prog value :=
  let* list_id := prop typedArgs "list_id" in
  let* task :=
    createTask apiToken list_id
      (VObj [("name", get typedArgs "name");
             ("description", get typedArgs "description");
             ("markdown_description", get typedArgs "markdown_description");
             ("assignees", get typedArgs "assignees");
             ("tags", get typedArgs "tags");
             ("status", get typedArgs "status");
             ("priority", get typedArgs "priority");
             ("due_date", get typedArgs "due_date");
             ("time_estimate", get typedArgs "time_estimate");
             ("start_date", get typedArgs "start_date");
             ("notify_all", get typedArgs "notify_all");
             ("parent", get typedArgs "parent")]) in
  Ret (text_result (pretty_json task)).

Definition get_task (typedArgs : value) : Prog value :=
  let* task_id := prop typedArgs "task_id" in
  let* task := getTask apiToken task_id in
  Ret (text_result (pretty_json task)).

Definition update_task (typedArgs : value) : Prog value :=
  let* _ := prop typedArgs "name" in
  let updates := update_task_updates typedArgs in
  let* task := updateTask apiToken (get typedArgs "task_id") (VObj updates) in
  Ret (text_result (pretty_json task)).

Definition delete_task (typedArgs : value) : Prog value :=
  let* task_id := prop typedArgs "task_id" in
  let* _ := deleteTask apiToken task_id in
  Ret (text_result
         (VStr ("Task " +:+ to_string (get typedArgs "task_id")
                  +:+ " has been deleted successfully."))).

Definition list_tasks (typedArgs : value) : Prog value :=
  let* list_id := prop typedArgs "list_id" in
  let* response :=
    listTasks apiToken list_id
      (VObj [("page", get typedArgs "page");
             ("archived", get typedArgs "archived");
             ("include_closed", get typedArgs "include_closed");
             ("assignees", get typedArgs "assignees");
             ("statuses", get typedArgs "statuses");
             ("tags", get typedArgs "tags");
             ("due_date_gt", get typedArgs "due_date_gt");
             ("due_date_lt", get typedArgs "due_date_lt")]) in
  Ret (text_result (pretty_json response)).

(** The [switch (typedArgs.scope)] of case 'clickup_search_tasks'. *)
Definition search_by_scope (typedArgs : value) (searchParams : obj) : Prog value :=
  let scope := get typedArgs "scope" in
  let invalid := Throw (Error ("Invalid scope: " +:+ to_string scope)) in
  match scope with
  | VStr s =>
      if String.eqb s "workspace" then
        if negb (truthy (get typedArgs "team_id"))
        then Throw (Error "team_id is required for workspace scope")
        else searchTasks apiToken (get typedArgs "team_id") (VObj searchParams)
      else if String.eqb s "space" then
        if negb (truthy (get typedArgs "space_id"))
        then Throw (Error "space_id is required for space scope")
        else
          searchTasks apiToken (get typedArgs "team_id")
            (VObj (set_prop "space_ids" (VArr [get typedArgs "space_id"])
                     searchParams))
      else if String.eqb s "folder" then
        if negb (truthy (get typedArgs "folder_id"))
        then Throw (Error "folder_id is required for folder scope")
        else
          searchTasks apiToken (get typedArgs "team_id")
            (VObj (set_prop "folder_ids" (VArr [get typedArgs "folder_id"])
                     searchParams))
      else if String.eqb s "list" then
        if negb (truthy (get typedArgs "list_id"))
        then Throw (Error "list_id is required for list scope")
        else
          searchTasks apiToken (get typedArgs "team_id")
            (VObj (set_prop "list_ids" (VArr [get typedArgs "list_id"])
                     searchParams))
      else invalid
  | _ => invalid
  end.

Definition search_tasks (typedArgs : value) : Prog value :=
  let* _ := prop typedArgs "query" in
  let* response := search_by_scope typedArgs (search_params typedArgs) in
  Ret (text_result (pretty_json response)).

Definition add_comment (typedArgs : value) : Prog value :=
  let* task_id := prop typedArgs "task_id" in
  let* comment :=
    createComment apiToken task_id
      (VObj [("comment_text", get typedArgs "comment_text");
             ("assignee", get typedArgs "assignee");
             ("notify_all", get typedArgs "notify_all")]) in
  Ret (text_result (pretty_json comment)).

Definition list_comments (typedArgs : value) : Prog value :=
  let* task_id := prop typedArgs "task_id" in
  let* response := getComments apiToken task_id in
  Ret (text_result (pretty_json response)).

(** The object passed to [addDependency] and [deleteDependency]. *)
Definition dependency_request (typedArgs : value) : value :=
  VObj [("depends_on", get typedArgs "depends_on");
        ("dependency_of", get typedArgs "dependency_of")].

Definition add_dependency (typedArgs : value) : Prog value :=
  let* task_id := prop typedArgs "task_id" in
  let* dependency :=
    addDependency apiToken task_id (dependency_request typedArgs) in
  Ret (text_result (pretty_json dependency)).

Definition remove_dependency (typedArgs : value) : Prog value :=
  let* task_id := prop typedArgs "task_id" in
  let* _ := deleteDependency apiToken task_id (dependency_request typedArgs) in
  Ret (text_result
         (VStr ("Dependency removed successfully from task "
                  +:+ to_string (get typedArgs "task_id")))).

Definition list_dependencies (typedArgs : value) : Prog value :=
  let* task_id := prop typedArgs "task_id" in
  let* task := getTaskWithDependencies apiToken task_id in
  let* id := prop task "id" in
  let result :=
    VObj [("task_id", id);
          ("task_name", get task "name");
          ("dependencies", or_else (get task "dependencies") (VArr []));
          ("linked_tasks", or_else (get task "linked_tasks") (VArr []))] in
  Ret (text_result (pretty_json result)).

Definition get_workspace_structure : Prog value :=
  let* structure := getWorkspaceStructure apiToken in
  Ret (text_result (pretty_json structure)).

(** The [switch (name)] inside the [try] block. *)
Definition dispatch (name : string) (args : value) : Prog value :=
  if String.eqb name "clickup_create_task" then create_task args
  else if String.eqb name "clickup_get_task" then get_task args
  else if String.eqb name "clickup_update_task" then update_task args
  else if String.eqb name "clickup_delete_task" then delete_task args
  else if String.eqb name "clickup_list_tasks" then list_tasks args
  else if String.eqb name "clickup_search_tasks" then search_tasks args
  else if String.eqb name "clickup_add_comment" then add_comment args
  else if String.eqb name "clickup_list_comments" then list_comments args
  else if String.eqb name "clickup_add_dependency" then add_dependency args
  else if String.eqb name "clickup_remove_dependency" then remove_dependency args
  else if String.eqb name "clickup_list_dependencies" then list_dependencies args
  else if String.eqb name "clickup_get_workspace_structure"
       then get_workspace_structure
  else Throw (Error ("Unknown tool: " +:+ name)).

(** The handler registered for [CallToolRequestSchema], applied to
    [request.params.name] and [request.params.arguments]. *)
Definition call_tool (name : string) (args : value) : Prog value :=
  try_catch (dispatch name args) (fun error => Ret (error_result error)).

End WithToken.

End Server.

(** ** Vocabulary of the statements *)

Module Spec.
Import Js Async Client Server.

(** The names of the catalog [TOOLS] of the server entry point. *)
Definition TOOLS : list string :=
  ["clickup_create_task"; "clickup_get_task"; "clickup_update_task";
   "clickup_delete_task"; "clickup_list_tasks"; "clickup_search_tasks";
   "clickup_add_comment"; "clickup_list_comments"; "clickup_add_dependency";
   "clickup_remove_dependency"; "clickup_list_dependencies";
   "clickup_get_workspace_structure"].

(** The headers every request carries. *)
Definition headers (apiToken : string) : list (string * string) :=
  [("Authorization", apiToken); ("Content-Type", "application/json")].

(** A [GET] of [path] with the query [query] and no body. *)
Definition GET (apiToken path : string) (query : list (string * string)) : Request :=
  mkRequest "GET" (baseUrl +:+ path) query (headers apiToken) None.

(** The backend answers [req] with a success status and the JSON [data]. *)
Definition serves (fetch : Request -> FetchOutcome) (req : Request)
    (data : value) : Prop :=
  match fetch req with
  | Responded r => resp_ok r = true /\ resp_json r = Fulfilled data
  | NetworkError _ => False
  end.

(** The three ways one call of [request] fails, with the error it throws:
    the transport fails, the body is not JSON, the status is not a success. *)
Inductive fails_with : FetchOutcome -> JsError -> Prop :=
| transport_failure e :
    fails_with (NetworkError e) e
| body_not_json r e :
    resp_json r = Rejected e ->
    fails_with (Responded r) e
| api_failure r data :
    resp_json r = Fulfilled data ->
    resp_ok r = false ->
    fails_with (Responded r) (Error (api_error_message r data)).

(** A response body [{ k: [item, ...] }]. *)
Definition keyed (k : string) (items : list obj) : value :=
  VObj [(k, VArr (map VObj items))].

Definition is_object (v : value) : bool :=
  match v with VObj _ => true | _ => false end.

Definition is_array (v : value) : bool :=
  match v with VArr _ => true | _ => false end.

(** A folder as the backend sends it: [lists] is an array of list objects, or
    is missing (or otherwise falsy). *)
Definition folder_ok (folder : obj) : bool :=
  match get (VObj folder) "lists" with
  | VArr ls => forallb is_object ls
  | v => negb (truthy v)
  end.

(** The lists a folder response embeds. *)
Definition embedded_lists (folder : obj) : list value :=
  match get (VObj folder) "lists" with
  | VArr ls => ls
  | _ => []
  end.

Definition id_name (v : value) : value :=
  VObj [("id", get v "id"); ("name", get v "name")].

Section Tree.
(** The backend's answers: the teams, the spaces of a team, the folders of
    a space, all the lists of a space. *)
Variable teams : list obj.
Variable spaces_of : obj -> list obj.
Variable folders_of : obj -> list obj.
Variable lists_of : obj -> list obj.

(** The tree that the specification describes for these answers. *)
Definition tree_folder (folder : obj) : value :=
  VObj [("id", get (VObj folder) "id");
        ("name", get (VObj folder) "name");
        ("lists", VArr (map id_name (embedded_lists folder)))].

(** The identifiers of the lists embedded in any folder. *)
Definition ids_in_folders (folders : list obj) : list value :=
  flat_map (fun folder => map (fun l => get l "id") (embedded_lists folder))
    folders.

(** All the lists of the space minus those some folder embeds, by
    identifier. *)
Definition folderless (folders all : list obj) : list value :=
  List.filter (fun l => negb (set_has (ids_in_folders folders) (get l "id")))
    (map VObj all).

Definition tree_space (space : obj) : value :=
  VObj (spread_with (VObj space)
          [("folders", VArr (map tree_folder (folders_of space)));
           ("lists", VArr (folderless (folders_of space) (lists_of space)))]).

Definition tree_team (team : obj) : value :=
  VObj (spread_with (VObj team)
          [("spaces", VArr (map tree_space (spaces_of team)))]).

Definition workspace_tree : value :=
  VObj [("teams", VArr (map tree_team teams))].

(** The backend serves these answers to the requests of
    [getWorkspaceStructure]. *)
Definition backend_serves (fetch : Request -> FetchOutcome)
    (apiToken : string) : Prop :=
  serves fetch (GET apiToken "/team" []) (keyed "teams" teams)
  /\ (forall team, In team teams ->
        serves fetch
          (GET apiToken ("/team/" +:+ to_string (get (VObj team) "id") +:+ "/space") [])
          (keyed "spaces" (spaces_of team)))
  /\ (forall team space, In team teams -> In space (spaces_of team) ->
        serves fetch
          (GET apiToken ("/space/" +:+ to_string (get (VObj space) "id") +:+ "/folder")
             [("archived", "false")])
          (keyed "folders" (folders_of space))
        /\ forallb folder_ok (folders_of space) = true
        /\ serves fetch
             (GET apiToken ("/space/" +:+ to_string (get (VObj space) "id") +:+ "/list") [])
             (keyed "lists" (lists_of space))).
End Tree.

(** The scope-specific identifier that case 'clickup_search_tasks' checks. *)
Definition scope_identifier : list (string * string) :=
  [("workspace", "team_id"); ("space", "space_id");
   ("folder", "folder_id"); ("list", "list_id")].

(** The fields of [UpdateTaskArgs] copied one to one. *)
Definition update_scalar_fields : list string :=
  ["name"; "description"; "markdown_description"; "status"; "priority";
   "due_date"; "time_estimate"; "archived"].

(** An optional array argument, as [UpdateTaskArgs] declares
    [assignees_add?: number[]] and the like: missing, or an array. *)
Definition optional_array (v : value) : bool :=
  match v with VUndef | VArr _ => true | _ => false end.

(** [{ add?, rem? }] with each side present when it was supplied. *)
Definition add_rem (add rem : value) : value :=
  VObj ((if defined add then [("add", add)] else [])
          ++ (if defined rem then [("rem", rem)] else [])).

(** The member [k:v] of a compact JSON object, none when [v] is [undefined]. *)
Definition member (k : string) (v : value) : list string :=
  match JSON_stringify v with
  | Some s => [quote k +:+ ":" +:+ s]
  | None => []
  end.

End Spec.

(** ** Concrete data *)

Module Demo.
Import Js Async Client Server Spec.

Definition ok_json (v : value) : FetchOutcome :=
  Responded (mkResponse 200 "OK" (Fulfilled v)).

Definition not_found : FetchOutcome :=
  Responded (mkResponse 404 "Not Found"
               (Fulfilled (VObj [("err", VStr "Task not found")]))).

Definition T1 : obj := [("id", VStr "T1"); ("name", VStr "One")].
Definition T2 : obj := [("id", VStr "T2"); ("name", VStr "Two")].
Definition S : obj := [("id", VStr "S"); ("name", VStr "Space")].
Definition L1 : obj := [("id", VStr "L1"); ("name", VStr "Backlog"); ("archived", VBool false)].
Definition L2 : obj := [("id", VStr "L2"); ("name", VStr "Inbox"); ("archived", VBool false)].
Definition F : obj :=
  [("id", VStr "F"); ("name", VStr "Folder"); ("orderindex", VNum 0);
   ("lists", VArr [VObj L1])].

(** A backend with the teams T1 and T2, each with the space S, which holds
    the folder F with the list L1, and the lists L1 and L2. Every other
    request is answered 404. *)
Definition backend (req : Request) : FetchOutcome :=
  let url := req_url req in
  if String.eqb url (baseUrl +:+ "/team") then ok_json (keyed "teams" [T1; T2])
  else if String.eqb url (baseUrl +:+ "/team/T1/space") then ok_json (keyed "spaces" [S])
  else if String.eqb url (baseUrl +:+ "/team/T2/space") then ok_json (keyed "spaces" [S])
  else if String.eqb url (baseUrl +:+ "/space/S/folder") then ok_json (keyed "folders" [F])
  else if String.eqb url (baseUrl +:+ "/space/S/list") then ok_json (keyed "lists" [L1; L2])
  else not_found.

(** A backend where every request fails with 404. *)
Definition backend_down (req : Request) : FetchOutcome := not_found.

(** The last promise settles first. *)
Definition last_first (outs : list (Settled value)) : list nat :=
  rev (seq 0 (length outs)).

Definition in_order (outs : list (Settled value)) : list nat :=
  seq 0 (length outs).

(** The message of the error for [not_found]. *)
Definition not_found_message : string :=
  "ClickUp API error: 404 Not Found" +:+ nl
    +:+ "{" +:+ nl
    +:+ "  " +:+ dq +:+ "err" +:+ dq +:+ ": " +:+ dq +:+ "Task not found" +:+ dq +:+ nl
    +:+ "}".

Definition search_in_list : value :=
  VObj [("query", VStr "bug"); ("scope", VStr "list");
        ("list_id", VStr "901234567"); ("team_id", VStr "9001")].

Definition search_in_space_without_team : value :=
  VObj [("query", VStr "bug"); ("scope", VStr "space"); ("space_id", VStr "55")].

Definition search_in_space_without_space : value :=
  VObj [("query", VStr "bug"); ("scope", VStr "space"); ("team_id", VStr "9001")].

Definition rename_and_untag : value :=
  VObj [("task_id", VStr "t1"); ("name", VStr "New name");
        ("tags_rem", VArr [VStr "stale"])].

Definition dependency_without_direction : value :=
  VObj [("task_id", VStr "t1")].

Definition dependency_waiting_on : value :=
  VObj [("task_id", VStr "t1"); ("depends_on", VStr "t2")].

End Demo.

(** ** Vocabulary for the properties of whole programs *)

Module Shape.
Import Js Async Client Server Spec.

(** [P] holds of every request the program can send, whatever the network
    answers and in whatever branch of a [Promise.all]. *)
Fixpoint every_request {A : Type} (P : Request -> Prop) (p : Prog A) : Prop :=
  match p with
  | Ret _ => True
  | Throw _ => True
  | Fetch req k => P req /\ forall out, every_request P (k out)
  | All tasks k =>
      (fix each (ts : list (Prog value)) : Prop :=
         match ts with
         | [] => True
         | t :: r => every_request P t /\ each r
         end) tasks
      /\ forall out, every_request P (k out)
  end.

(** The program ends without sending anything. *)
Definition no_request {A : Type} (p : Prog A) : Prop :=
  match p with
  | Ret _ | Throw _ => True
  | Fetch _ _ | All _ _ => False
  end.

(** The program sends one request at most: after the answer it ends. *)
Definition at_most_one_request {A : Type} (p : Prog A) : Prop :=
  match p with
  | Ret _ | Throw _ => True
  | Fetch _ k => forall out, no_request (k out)
  | All _ _ => False
  end.

(** What [request] puts in the options of every [fetch]: the two headers, one
    of the four methods, and a body with POST and PUT only. *)
Definition client_request (apiToken : string) (req : Request) : Prop :=
  req_headers req = headers apiToken
  /\ (((req_method req = "GET" \/ req_method req = "DELETE") /\ req_body req = None)
      \/ ((req_method req = "POST" \/ req_method req = "PUT")
          /\ exists text, req_body req = Some text)).

(** The tools whose result is the backend's answer itself. *)
Definition pass_through_tools : list string :=
  ["clickup_create_task"; "clickup_get_task"; "clickup_update_task";
   "clickup_list_tasks"; "clickup_search_tasks"; "clickup_add_comment";
   "clickup_list_comments"; "clickup_add_dependency"].

(** The request a program starts with, if it starts with one. *)
Definition first_request {A : Type} (p : Prog A) : option Request :=
  match p with
  | Fetch req _ => Some req
  | _ => None
  end.

(** The arguments that case 'clickup_create_task' copies into the task. *)
Definition create_task_fields : list string :=
  ["name"; "description"; "markdown_description"; "assignees"; "tags";
   "status"; "priority"; "due_date"; "time_estimate"; "start_date";
   "notify_all"; "parent"].

(** The arguments that cases 'clickup_list_tasks' and 'clickup_search_tasks'
    copy into the filters. *)
Definition list_filter_fields : list string :=
  ["page"; "archived"; "include_closed"; "assignees"; "statuses"; "tags";
   "due_date_gt"; "due_date_lt"].

Definition search_filter_fields : list string :=
  ["query"; "page"; "include_closed"; "assignees"; "statuses"; "tags";
   "due_date_gt"; "due_date_lt"].

(** A parameter name that comes from the key [k]: [k] itself, or [k[]]. *)
Definition named_after (keys : list string) (name : string) : Prop :=
  exists k, In k keys /\ (name = k \/ name = k +:+ "[]").

(** The parameter that narrows a search, for each scope that has one: the
    scope, the argument that names the place, the name of the parameter. *)
Definition scope_narrowing : list (string * string * string) :=
  [("space", "space_id", "space_ids[]");
   ("folder", "folder_id", "folder_ids[]");
   ("list", "list_id", "list_ids[]")].

(** The HTTP method of each tool. *)
Definition tool_methods : list (string * string) :=
  [("clickup_create_task", "POST"); ("clickup_get_task", "GET");
   ("clickup_update_task", "PUT"); ("clickup_delete_task", "DELETE");
   ("clickup_list_tasks", "GET"); ("clickup_search_tasks", "GET");
   ("clickup_add_comment", "POST"); ("clickup_list_comments", "GET");
   ("clickup_add_dependency", "POST"); ("clickup_remove_dependency", "DELETE");
   ("clickup_list_dependencies", "GET");
   ("clickup_get_workspace_structure", "GET")].

Definition narrowing_parameters : list string :=
  ["space_ids[]"; "folder_ids[]"; "list_ids[]"].

End Shape.

(** ** More concrete data *)

Module Sample.
Import Js Async Client Server Spec.

(** A backend that answers every request with the JSON [v]. *)
Definition answers (v : value) (req : Request) : FetchOutcome :=
  Responded (mkResponse 200 "OK" (Fulfilled v)).

(** A backend that refuses the requests for folders with a 403, and answers
    every other request with the JSON [v]. *)
Definition without_folders (v : value) (req : Request) : FetchOutcome :=
  if String.eqb (req_url req) (baseUrl +:+ "/space/S/folder")
  then Responded (mkResponse 403 "Forbidden"
                    (Fulfilled (VObj [("err", VStr "Folders are off")])))
  else Responded (mkResponse 200 "OK" (Fulfilled v)).

(** A backend that serves the team T1 and its space S, and answers 404 to
    every other request. *)
Definition lists_down (req : Request) : FetchOutcome :=
  let url := req_url req in
  if String.eqb url (baseUrl +:+ "/team") then Demo.ok_json (keyed "teams" [Demo.T1])
  else if String.eqb url (baseUrl +:+ "/team/T1/space")
       then Demo.ok_json (keyed "spaces" [Demo.S])
  else Demo.not_found.




Definition a_task : value :=
  VObj [("id", VStr "abc"); ("name", VStr "Fix login"); ("status", VStr "open");
        ("dependencies", VArr [VObj [("depends_on", VStr "t2")]])].

Definition a_search_in_a_folder : value :=
  VObj [("query", VStr "bug"); ("scope", VStr "folder");
        ("folder_id", VStr "77"); ("team_id", VStr "9001");
        ("tags", VArr [VStr "ui"]); ("space_id", VStr "55")].

End Sample.

(** ** Properties *)

Import Js Async Client Server Spec.

(** *** Objects *)

Lemma lookup_set_prop_same k v o : lookup_prop k (set_prop k v o) = Some v.
Proof.
  induction o as [|[k' v'] o IH]; simpl.
  - now rewrite String.eqb_refl.
  - destruct (String.eqb k' k) eqn:E; simpl.
    + now rewrite String.eqb_refl.
    + now rewrite E.
Qed.

Lemma lookup_set_prop_other k k' v o :
  String.eqb k' k = false -> lookup_prop k (set_prop k' v o) = lookup_prop k o.
Proof.
  intros Hne. induction o as [|[k0 v0] o IH]; simpl.
  - now rewrite Hne.
  - destruct (String.eqb k0 k') eqn:E; simpl.
    + apply String.eqb_eq in E. subst k0. now rewrite Hne.
    + destruct (String.eqb k0 k); [reflexivity | exact IH].
Qed.

Lemma lookup_set_prop k k' v o :
  lookup_prop k (set_prop k' v o)
  = if String.eqb k' k then Some v else lookup_prop k o.
Proof.
  destruct (String.eqb k' k) eqn:E.
  - apply String.eqb_eq in E. subst. apply lookup_set_prop_same.
  - now apply lookup_set_prop_other.
Qed.

Lemma lookup_prop_In k v o : lookup_prop k o = Some v -> In (k, v) o.
Proof.
  induction o as [|[k' v'] o IH]; simpl; [discriminate|].
  destruct (String.eqb k' k) eqn:E.
  - apply String.eqb_eq in E. intros [= ->]. subst. now left.
  - intros H. right. now apply IH.
Qed.

Lemma keys_set_prop k v o x : In x (keys (set_prop k v o)) -> x = k \/ In x (keys o).
Proof.
  unfold keys. induction o as [|[k' v'] o IH]; simpl.
  - intros [<-|[]]. now left.
  - destruct (String.eqb k' k) eqn:E; simpl.
    + intros [<-|H]; [now left | right; now right].
    + intros [<-|H]; [right; now left |].
      destruct (IH H) as [->|H']; [now left | right; now right].
Qed.

(** *** Running programs *)

Section RunFacts.
Variable fetch : Request -> FetchOutcome.
Variable completion : list (Settled value) -> list nat.

Local Abbreviation run := (Async.run fetch completion).

Lemma run_bind {A B : Type} (p : Prog A) (f : A -> Prog B) :
  run (bind p f)
  = match run p with
    | Fulfilled a => run (f a)
    | Rejected e => Rejected e
    end.
Proof.
  revert B f. induction p as [A a|A e|A req k IH|A tasks k IH]; intros B f; simpl.
  - reflexivity.
  - reflexivity.
  - apply IH.
  - apply IH.
Qed.

Lemma run_bind_fulfilled {A B : Type} (p : Prog A) (f : A -> Prog B) a :
  run p = Fulfilled a -> run (bind p f) = run (f a).
Proof. intros H. now rewrite run_bind, H. Qed.

Lemma run_bind_rejected {A B : Type} (p : Prog A) (f : A -> Prog B) e :
  run p = Rejected e -> run (bind p f) = Rejected e.
Proof. intros H. now rewrite run_bind, H. Qed.

Lemma run_try_catch {A : Type} (p : Prog A) (h : JsError -> Prog A) :
  run (try_catch p h)
  = match run p with
    | Fulfilled a => Fulfilled a
    | Rejected e => run (h e)
    end.
Proof.
  induction p as [A a|A e|A req k IH|A tasks k IH]; simpl.
  - reflexivity.
  - reflexivity.
  - apply IH.
  - apply IH.
Qed.

End RunFacts.

(** *** Promise.all *)

Lemma partial_fill_insert vs slots i v :
  partial_fill vs slots -> vs !! i = Some v ->
  partial_fill vs (<[i := Some v]> slots).
Proof.
  intros [Hlen Hval] Hi. split.
  - now rewrite length_insert.
  - intros j x Hj. destruct (decide (i = j)) as [->|Hne].
    + rewrite list_lookup_insert_eq in Hj.
      * congruence.
      * rewrite Hlen. eapply lookup_lt_Some; eauto.
    + rewrite list_lookup_insert_ne in Hj by assumption. eauto.
Qed.

Lemma settle_fulfilled vs order slots :
  partial_fill vs slots ->
  exists slots',
    settle order (map Fulfilled vs) slots = Fulfilled slots'
    /\ partial_fill vs slots'
    /\ forall i, (i < length vs)%nat ->
         In i order \/ (exists x, slots !! i = Some (Some x)) ->
         exists x, slots' !! i = Some (Some x).
Proof.
  revert slots. induction order as [|i order IH]; intros slots Hpf; simpl.
  - exists slots. split; [reflexivity|]. split; [assumption|].
    intros j _ [[]|H]. exact H.
  - rewrite list_lookup_fmap.
    destruct (vs !! i) as [v|] eqn:Hi; simpl.
    + destruct (IH _ (partial_fill_insert _ _ _ _ Hpf Hi))
        as (slots' & Hs & Hpf' & Hall).
      exists slots'. split; [exact Hs|]. split; [exact Hpf'|].
      intros j Hj [[->|Hin]|[x Hx]].
      * apply Hall; [exact Hj|]. right. exists v.
        apply list_lookup_insert_eq. destruct Hpf as [-> _]. exact Hj.
      * apply Hall; [exact Hj|]. now left.
      * apply Hall; [exact Hj|]. right.
        destruct (decide (i = j)) as [->|Hne].
        -- exists v. apply list_lookup_insert_eq. destruct Hpf as [-> _]. exact Hj.
        -- exists x. now rewrite list_lookup_insert_ne.
    + destruct (IH _ Hpf) as (slots' & Hs & Hpf' & Hall).
      exists slots'. split; [exact Hs|]. split; [exact Hpf'|].
      intros j Hj [[->|Hin]|Hx].
      * apply lookup_ge_None in Hi. lia.
      * apply Hall; [exact Hj|]. now left.
      * apply Hall; [exact Hj|]. now right.
Qed.

Lemma omap_id_Some (vs : list value) : omap id (map Some vs) = vs.
Proof.
  induction vs as [|v vs IH]; [reflexivity|].
  change (v :: omap id (map Some vs) = v :: vs). now f_equal.
Qed.

(** When every promise fulfils, [Promise.all] yields the values in the order
    of the promises, whatever the order in which they settle. *)
Lemma settle_all_fulfilled order vs :
  settle_all order (map Fulfilled vs) = Fulfilled vs.
Proof.
  unfold settle_all. rewrite length_map.
  destruct (settle_fulfilled vs (order ++ seq 0 (length vs))
              (replicate (length vs) None)) as (slots' & -> & [Hlen Hval] & Hall).
  - split; [apply length_replicate|].
    intros i x Hi. apply lookup_replicate in Hi. destruct Hi as [Hi _]. discriminate.
  - f_equal. transitivity (omap id (map Some vs)); [|apply omap_id_Some].
    f_equal. apply list_eq. intros i. rewrite list_lookup_fmap.
    destruct (decide (i < length vs)%nat) as [Hlt|Hge].
    + destruct (Hall i Hlt) as [x Hx].
      { left. apply in_or_app. right. apply in_seq. lia. }
      rewrite Hx, (Hval _ _ Hx). reflexivity.
    + rewrite (lookup_ge_None_2 slots' i) by lia.
      rewrite (lookup_ge_None_2 vs i) by lia. reflexivity.
Qed.

(** A rejected promise rejects [Promise.all], with the error of one of the
    rejected promises. *)
Lemma settle_rejected outs order slots i e :
  outs !! i = Some (Rejected e) -> In i order ->
  exists e', settle order outs slots = Rejected e' /\ In (Rejected e') outs.
Proof.
  intros Hi. revert slots. induction order as [|j order IH]; intros slots Hin; simpl.
  - destruct Hin.
  - destruct (outs !! j) as [[v|e']|] eqn:Hj.
    + apply IH. destruct Hin as [->|Hin]; [congruence | exact Hin].
    + exists e'. split; [reflexivity|].
      apply list_elem_of_In. eapply list_elem_of_lookup_2; eauto.
    + apply IH. destruct Hin as [->|Hin]; [congruence | exact Hin].
Qed.

Lemma settle_all_rejected outs order e :
  In (Rejected e) outs ->
  exists e', settle_all order outs = Rejected e' /\ In (Rejected e') outs.
Proof.
  intros Hin. apply list_elem_of_In, list_elem_of_lookup in Hin.
  destruct Hin as [i Hi]. unfold settle_all.
  destruct (settle_rejected outs (order ++ seq 0 (length outs))
              (replicate (length outs) None) i e Hi) as (e' & -> & He').
  - apply in_or_app. right. apply in_seq.
    apply lookup_lt_Some in Hi. lia.
  - eauto.
Qed.

Section PromiseAllFacts.
Variable fetch : Request -> FetchOutcome.
Variable completion : list (Settled value) -> list nat.

Local Abbreviation run := (Async.run fetch completion).

Lemma run_promise_all_map {X : Type} (f : X -> Prog value) (g : X -> value)
    (xs : list X) :
  (forall x, In x xs -> run (f x) = Fulfilled (g x)) ->
  run (promise_all (map f xs)) = Fulfilled (map g xs).
Proof.
  intros H. unfold promise_all. simpl.
  replace (map _ (map f xs)) with (map Fulfilled (map g xs)).
  - now rewrite settle_all_fulfilled.
  - rewrite !map_map. apply map_ext_in. intros x Hx. symmetry. now apply H.
Qed.

Lemma run_promise_all_rejected (tasks : list (Prog value)) t e :
  In t tasks -> run t = Rejected e ->
  exists e', run (promise_all tasks) = Rejected e'.
Proof.
  intros Hin Ht. unfold promise_all. simpl.
  destruct (settle_all_rejected (map (fun t => run t) tasks)
              (completion (map (fun t => run t) tasks)) e) as (e' & -> & _).
  - rewrite <- Ht. apply (in_map (fun t => run t)). exact Hin.
  - now exists e'.
Qed.
End PromiseAllFacts.

(** *** The HTTP client *)

Section RequestFacts.
Variable apiToken : string.
Variable fetch : Request -> FetchOutcome.
Variable completion : list (Settled value) -> list nat.

Local Abbreviation run := (Async.run fetch completion).

Lemma run_request_fails method path body queryParams e :
  fails_with
    (fetch (mkRequest method (baseUrl +:+ path) (searchParams queryParams)
              (headers apiToken)
              (if truthy body then JSON_stringify body else None))) e ->
  run (request apiToken method path body queryParams) = Rejected e.
Proof.
  intros H. unfold request. simpl. fold (headers apiToken).
  inversion H as [e' Heq|r e' Hjson Heq|r data Hjson Hok Heq]; subst.
  - reflexivity.
  - now rewrite Hjson.
  - now rewrite Hjson, Hok.
Qed.

Lemma run_request_serves method path body queryParams data :
  serves fetch
    (mkRequest method (baseUrl +:+ path) (searchParams queryParams)
       (headers apiToken)
       (if truthy body then JSON_stringify body else None)) data ->
  run (request apiToken method path body queryParams) = Fulfilled data.
Proof.
  unfold serves, request. simpl. fold (headers apiToken).
  destruct (fetch _) as [e|r]; [intros []|].
  intros [Hok Hjson]. now rewrite Hjson, Hok.
Qed.
End RequestFacts.






(** C8: whatever the error, a failed request for the folders of a space makes
    [getFolders] return [{ folders: [] }], and a failed request for the lists
    of the space makes [getLists] fail with that error; inside
    [getWorkspaceStructure], the work on a space whose two requests both fail
    fails with the error of the list request. *)
Theorem folder_failure_absorbed_list_failure_propagates :
  forall apiToken fetch completion spaceId,
    (forall e,
        fails_with
          (fetch (GET apiToken ("/space/" +:+ to_string spaceId +:+ "/folder")
                    [("archived", "false")])) e ->
        run fetch completion (getFolders apiToken spaceId VUndef)
        = Fulfilled (VObj [("folders", VArr [])]))
    /\ (forall e,
          fails_with
            (fetch (GET apiToken ("/space/" +:+ to_string spaceId +:+ "/list") [])) e ->
          run fetch completion (getLists apiToken spaceId) = Rejected e)
    /\ (forall space e e',
          fails_with
            (fetch (GET apiToken
                      ("/space/" +:+ to_string (get (VObj space) "id") +:+ "/folder")
                      [("archived", "false")])) e ->
          fails_with
            (fetch (GET apiToken
                      ("/space/" +:+ to_string (get (VObj space) "id") +:+ "/list")
                      [])) e' ->
          run fetch completion (space_with_folders_and_lists apiToken (VObj space))
          = Rejected e').
Proof.
  intros apiToken fetch completion spaceId.
  assert (Hfolders : forall sid e,
             fails_with
               (fetch (GET apiToken ("/space/" +:+ to_string sid +:+ "/folder")
                         [("archived", "false")])) e ->
             run fetch completion (getFolders apiToken sid VUndef)
             = Fulfilled (VObj [("folders", VArr [])])).
  { intros sid e H.
    change (getFolders apiToken sid VUndef)
      with (try_catch
              (request apiToken "GET" ("/space/" +:+ to_string sid +:+ "/folder")
                 VUndef (VObj [("archived", VBool false)]))
              (fun _ => Ret (VObj [("folders", VArr [])]))).
    rewrite run_try_catch.
    now rewrite (run_request_fails apiToken fetch completion "GET" _ VUndef
                   (VObj [("archived", VBool false)]) e H). }
  assert (Hlists : forall sid e,
             fails_with
               (fetch (GET apiToken ("/space/" +:+ to_string sid +:+ "/list") [])) e ->
             run fetch completion (getLists apiToken sid) = Rejected e).
  { intros sid e H. unfold getLists.
    exact (run_request_fails apiToken fetch completion "GET" _ VUndef VUndef e H). }
  split; [apply Hfolders|]. split; [apply Hlists|].
  intros space e e' Hf Hl. unfold space_with_folders_and_lists.
  cbn [bind prop].
  rewrite (run_bind_fulfilled _ _ _ _ _ (Hfolders _ _ Hf)).
  cbn [bind destructure as_array get lookup_prop String.eqb Ascii.eqb Bool.eqb
       map_sync].
  apply run_bind_rejected. exact (Hlists _ _ Hl).
Qed.

Lemma folder_failure_absorbed_list_failure_propagates_witness :
  run Demo.backend_down Demo.in_order (getFolders "pk_token" (VStr "S") VUndef)
  = Fulfilled (VObj [("folders", VArr [])])
  /\ run Demo.backend_down Demo.in_order (getLists "pk_token" (VStr "S"))
     = Rejected (Error Demo.not_found_message)
  /\ run Demo.backend_down Demo.in_order
       (space_with_folders_and_lists "pk_token" (VObj Demo.S))
     = Rejected (Error Demo.not_found_message).
Proof.
  assert (Hdown : forall req,
             fails_with (Demo.backend_down req) (Error Demo.not_found_message)).
  { intros req.
    exact (api_failure
             (mkResponse 404 "Not Found"
                (Fulfilled (VObj [("err", VStr "Task not found")])))
             (VObj [("err", VStr "Task not found")]) eq_refl eq_refl). }
  destruct (folder_failure_absorbed_list_failure_propagates
              "pk_token" Demo.backend_down Demo.in_order (VStr "S"))
    as (Hf & Hl & Hs).
  split; [|split].
  - exact (Hf _ (Hdown _)).
  - exact (Hl _ (Hdown _)).
  - exact (Hs Demo.S _ _ (Hdown _) (Hdown _)).
Defined.


(** *** The dispatcher *)

(** C9: a tool call never rejects. Whatever the network does, [call_tool]
    fulfils with a result; when the body of the [try] block fails with an error
    [e], the result is
    [{ content: [{ type: 'text', text: 'Error: ' + e.message }], isError: true }];
    a name outside the catalog gives that result with the message
    "Unknown tool: " followed by the name, without any request. *)
Theorem call_tool_never_rejects :
  forall apiToken fetch completion name args,
    (exists result,
        run fetch completion (call_tool apiToken name args) = Fulfilled result)
    /\ (forall e,
          run fetch completion (dispatch apiToken name args) = Rejected e ->
          run fetch completion (call_tool apiToken name args)
          = Fulfilled
              (VObj [("content",
                      VArr [VObj [("type", VStr "text");
                                  ("text", VStr ("Error: " +:+ err_message e))]]);
                     ("isError", VBool true)]))
    /\ (~ In name TOOLS ->
        call_tool apiToken name args
        = Ret (VObj [("content",
                      VArr [VObj [("type", VStr "text");
                                  ("text", VStr ("Error: " +:+ "Unknown tool: " +:+ name))]]);
                     ("isError", VBool true)])).
Proof.
  intros apiToken fetch completion name args. unfold call_tool.
  split; [|split].
  - rewrite run_try_catch.
    destruct (run fetch completion (dispatch apiToken name args)) as [v|e]; eauto.
  - intros e He. now rewrite run_try_catch, He.
  - intros Hunknown. unfold dispatch.
    repeat match goal with
           | |- context [String.eqb name ?s] =>
               destruct (String.eqb_spec name s) as [->|_];
               [exfalso; apply Hunknown; simpl; tauto|]
           end.
    reflexivity.
Qed.

Lemma call_tool_never_rejects_witness :
  run Demo.backend_down Demo.in_order
    (call_tool "pk_token" "clickup_get_task" (VObj [("task_id", VStr "abc")]))
  = Fulfilled (error_result (Error Demo.not_found_message))
  /\ call_tool "pk_token" "clickup_archive_task" VUndef
     = Ret (error_result (Error "Unknown tool: clickup_archive_task")).
Proof.
  destruct (call_tool_never_rejects "pk_token" Demo.backend_down
              Demo.in_order "clickup_get_task" (VObj [("task_id", VStr "abc")]))
    as (_ & Hcaught & _).
  destruct (call_tool_never_rejects "pk_token" Demo.backend_down
              Demo.in_order "clickup_archive_task" VUndef)
    as (_ & _ & Hunknown).
  split.
  - apply Hcaught. reflexivity.
  - apply Hunknown. simpl. intuition discriminate.
Defined.

Lemma dispatch_search_tasks apiToken args :
  dispatch apiToken "clickup_search_tasks" args = search_tasks apiToken args.
Proof. reflexivity. Qed.

Lemma dispatch_update_task apiToken args :
  dispatch apiToken "clickup_update_task" args = update_task apiToken args.
Proof. reflexivity. Qed.

Lemma dispatch_add_dependency apiToken args :
  dispatch apiToken "clickup_add_dependency" args = add_dependency apiToken args.
Proof. reflexivity. Qed.

Lemma get_is_string_object v k s : get v k = VStr s -> exists o, v = VObj o.
Proof. destruct v; simpl; try discriminate. eauto. Qed.

Lemma scope_cases scope key :
  In (scope, key) scope_identifier ->
  (scope = "workspace" /\ key = "team_id")
  \/ (scope = "space" /\ key = "space_id")
  \/ (scope = "folder" /\ key = "folder_id")
  \/ (scope = "list" /\ key = "list_id").
Proof.
  unfold scope_identifier. simpl.
  intros [H|[H|[H|[H|[]]]]]; injection H as <- <-; tauto.
Qed.

(** C3, amended: a search whose scope-specific identifier is missing (or is
    otherwise falsy) fails before any request. The identifier is [team_id]
    for the scope "workspace", [space_id] for "space", [folder_id] for
    "folder" and [list_id] for "list"; the result is the error result with the
    message "<identifier> is required for <scope> scope". *)
Theorem search_without_scope_identifier_fails_before_any_request :
  forall apiToken args scope key,
    In (scope, key) scope_identifier ->
    get args "scope" = VStr scope ->
    truthy (get args key) = false ->
    call_tool apiToken "clickup_search_tasks" args
    = Ret (error_result (Error (key +:+ " is required for " +:+ scope +:+ " scope"))).
Proof.
  intros apiToken args scope key Hin Hscope Hfalsy.
  destruct (get_is_string_object _ _ _ Hscope) as [o ->].
  unfold call_tool. rewrite dispatch_search_tasks.
  unfold search_tasks. cbn [prop bind]. unfold search_by_scope.
  rewrite Hscope.
  destruct (scope_cases _ _ Hin) as [[-> ->]|[[-> ->]|[[-> ->]|[-> ->]]]];
    cbn [String.eqb Ascii.eqb Bool.eqb]; rewrite Hfalsy; reflexivity.
Qed.

Lemma search_without_scope_identifier_fails_before_any_request_witness :
  call_tool "pk_token" "clickup_search_tasks" Demo.search_in_space_without_space
  = Ret (error_result (Error "space_id is required for space scope")).
Proof.
  apply (search_without_scope_identifier_fails_before_any_request
           "pk_token" Demo.search_in_space_without_space "space" "space_id").
  - simpl. tauto.
  - reflexivity.
  - reflexivity.
Defined.

(** C3 as stated fails: with the scope "space", a [space_id] and no
    [team_id], the call is not refused; a request is sent. *)
Lemma search_in_space_without_team_is_not_refused :
  get Demo.search_in_space_without_team "scope" = VStr "space"
  /\ get Demo.search_in_space_without_team "team_id" = VUndef
  /\ (forall result,
        call_tool "pk_token" "clickup_search_tasks"
          Demo.search_in_space_without_team <> Ret result)
  /\ exists req k,
       call_tool "pk_token" "clickup_search_tasks"
         Demo.search_in_space_without_team = Fetch req k
       /\ req_method req = "GET"
       /\ req_url req = "https://api.clickup.com/api/v2/team/undefined/task".
Proof.
  split; [reflexivity|]. split; [reflexivity|]. split.
  - intros result. discriminate.
  - eexists. eexists. split; [reflexivity|]. split; reflexivity.
Qed.

(** C10: with the scope "space", "folder" or "list" and the identifier of
    that scope present, the call is not refused whatever [team_id] is: the
    first thing it does is a [GET] of "/team/" + String(team_id) + "/task".
    When [team_id] is missing that is "/team/undefined/task". *)
Theorem search_never_checks_team_id_in_narrow_scopes :
  forall apiToken args scope key,
    In (scope, key) [("space", "space_id"); ("folder", "folder_id"); ("list", "list_id")] ->
    get args "scope" = VStr scope ->
    truthy (get args key) = true ->
    exists req k,
      call_tool apiToken "clickup_search_tasks" args = Fetch req k
      /\ req_method req = "GET"
      /\ req_url req
         = baseUrl +:+ "/team/" +:+ to_string (get args "team_id") +:+ "/task"
      /\ (get args "team_id" = VUndef ->
          req_url req = "https://api.clickup.com/api/v2/team/undefined/task").
Proof.
  intros apiToken args scope key Hin Hscope Htruthy.
  destruct (get_is_string_object _ _ _ Hscope) as [o ->].
  unfold call_tool. rewrite dispatch_search_tasks.
  unfold search_tasks. cbn [prop bind]. unfold search_by_scope.
  rewrite Hscope.
  simpl in Hin.
  destruct Hin as [H|[H|[H|[]]]]; injection H as <- <-;
    cbn [String.eqb Ascii.eqb Bool.eqb]; rewrite Htruthy;
    (eexists; eexists; split; [reflexivity|]; split; [reflexivity|];
     split; [reflexivity|]; intros ->; reflexivity).
Qed.

Lemma search_never_checks_team_id_in_narrow_scopes_witness :
  exists req k,
    call_tool "pk_token" "clickup_search_tasks" Demo.search_in_space_without_team
    = Fetch req k
    /\ req_method req = "GET"
    /\ req_url req
       = baseUrl +:+ "/team/"
           +:+ to_string (get Demo.search_in_space_without_team "team_id")
           +:+ "/task"
    /\ (get Demo.search_in_space_without_team "team_id" = VUndef ->
        req_url req = "https://api.clickup.com/api/v2/team/undefined/task").
Proof.
  apply (search_never_checks_team_id_in_narrow_scopes
           "pk_token" Demo.search_in_space_without_team "space" "space_id").
  - simpl. tauto.
  - reflexivity.
  - reflexivity.
Defined.

(** *** Request bodies *)

(** A compact [JSON.stringify] of an object writes one member per property
    whose value is not [undefined], in property order. *)
Lemma stringify_object (o : obj) :
  JSON_stringify (VObj o)
  = Some ("{" +:+ join "," (flat_map (fun kv => member (fst kv) (snd kv)) o) +:+ "}").
Proof.
  unfold JSON_stringify. cbn [serialize].
  match goal with
  | |- Some (wrap _ _ _ _ _ ?m) = _ =>
      assert (Hm : m = flat_map (fun kv => member (fst kv) (snd kv)) o)
  end.
  { induction o as [|[k x] o IH]; [reflexivity|].
    cbn [flat_map fst snd]. unfold member at 1. unfold JSON_stringify.
    rewrite <- IH. change ("" +:+ "") with "".
    destruct (serialize "" "" x) as [s|]; reflexivity. }
  rewrite Hm. f_equal.
  destruct (flat_map _ o); reflexivity.
Qed.

Lemma member_nil_iff k v : member k v = [] <-> v = VUndef.
Proof.
  unfold member, JSON_stringify.
  destruct v; simpl; split; intros H; try reflexivity; discriminate.
Qed.

(** C6, amended: the dispatcher sends a dependency-add request without
    checking the direction fields. The body is the object
    [{ depends_on, dependency_of }] of the arguments, in which a field the
    caller left out is not written; when the caller leaves out both, the
    body is the empty object. *)
Theorem add_dependency_forwards_direction_fields_unchecked :
  forall apiToken args,
    non_nullish args = true ->
    exists req k,
      call_tool apiToken "clickup_add_dependency" args = Fetch req k
      /\ req_method req = "POST"
      /\ req_url req
         = baseUrl +:+ "/task/" +:+ to_string (get args "task_id") +:+ "/dependency"
      /\ req_body req
         = Some ("{" +:+ join ","
                           (member "depends_on" (get args "depends_on")
                              ++ member "dependency_of" (get args "dependency_of"))
                     +:+ "}")
      /\ (forall field v, member field v = [] <-> v = VUndef)
      /\ (get args "depends_on" = VUndef ->
          get args "dependency_of" = VUndef ->
          req_body req = Some "{}").
Proof.
  intros apiToken args Hargs.
  unfold call_tool. rewrite dispatch_add_dependency. unfold add_dependency.
  assert (Hprop : prop args "task_id" = Ret (get args "task_id")).
  { destruct args; try discriminate; reflexivity. }
  rewrite Hprop. cbn [bind]. unfold addDependency, request. cbn [bind try_catch].
  eexists. eexists. split; [reflexivity|].
  cbn [req_method req_url req_body]. split; [reflexivity|]. split; [reflexivity|].
  assert (Hbody : (if truthy (dependency_request args)
                   then JSON_stringify (dependency_request args) else None)
                  = Some ("{" +:+ join ","
                            (member "depends_on" (get args "depends_on")
                               ++ member "dependency_of" (get args "dependency_of"))
                            +:+ "}")).
  { unfold dependency_request. cbn [truthy]. rewrite stringify_object.
    cbn [flat_map fst snd]. now rewrite app_nil_r. }
  split; [exact Hbody|]. split; [apply member_nil_iff|].
  intros Hd Ho. rewrite Hbody, Hd, Ho. reflexivity.
Qed.

Lemma add_dependency_forwards_direction_fields_unchecked_witness :
  exists req k,
    call_tool "pk_token" "clickup_add_dependency" Demo.dependency_waiting_on
    = Fetch req k
    /\ req_method req = "POST"
    /\ req_url req = "https://api.clickup.com/api/v2/task/t1/dependency"
    /\ req_body req
       = Some ("{" +:+ dq +:+ "depends_on" +:+ dq +:+ ":" +:+ dq +:+ "t2" +:+ dq +:+ "}")
    /\ (forall field v, member field v = [] <-> v = VUndef)
    /\ (VStr "t2" = VUndef -> VUndef = VUndef -> req_body req = Some "{}").
Proof.
  exact (add_dependency_forwards_direction_fields_unchecked
           "pk_token" Demo.dependency_waiting_on eq_refl).
Defined.

(** C6 as stated fails: a call that names neither direction sends a request
    whose body has neither field. *)
Lemma add_dependency_without_direction_is_sent :
  get Demo.dependency_without_direction "depends_on" = VUndef
  /\ get Demo.dependency_without_direction "dependency_of" = VUndef
  /\ exists k,
       call_tool "pk_token" "clickup_add_dependency"
         Demo.dependency_without_direction
       = Fetch (mkRequest "POST"
                  "https://api.clickup.com/api/v2/task/t1/dependency" []
                  (headers "pk_token") (Some "{}")) k.
Proof.
  split; [reflexivity|]. split; [reflexivity|].
  eexists. reflexivity.
Qed.

(** *** Query parameters *)

Lemma searchParams_object (o : obj) : searchParams (VObj o) = flat_map append_param o.
Proof. reflexivity. Qed.

Lemma searchParams_insert (before after : obj) key v :
  searchParams (VObj (before ++ (key, v) :: after))
  = searchParams (VObj before) ++ append_param (key, v) ++ searchParams (VObj after).
Proof. rewrite !searchParams_object, flat_map_app. reflexivity. Qed.

Lemma searchParams_has_scalar (o : obj) k v :
  lookup_prop k o = Some v -> non_nullish v = true -> is_array v = false ->
  In (k, to_string v) (searchParams (VObj o)).
Proof.
  intros Hk Hv Harr. rewrite searchParams_object. apply in_flat_map.
  exists (k, v). split; [now apply lookup_prop_In|].
  unfold append_param. rewrite Hv.
  destruct v; try discriminate; now left.
Qed.

Lemma searchParams_has_element (o : obj) k l v :
  lookup_prop k o = Some (VArr l) -> In v l ->
  In (k +:+ "[]", to_string v) (searchParams (VObj o)).
Proof.
  intros Hk Hv. rewrite searchParams_object. apply in_flat_map.
  exists (k, VArr l). split; [now apply lookup_prop_In|].
  cbn [append_param non_nullish].
  now apply (in_map (fun v => (k +:+ "[]", to_string v))).
Qed.

(** C1, amended: [request] walks the query parameters in order. A value that is
    an array adds one pair per element, in the order of the array, under the name
    of the key followed by "[]"; any other value that is not [undefined] or [null]
    adds one pair under the key; [undefined] and [null] add nothing. A search
    with the scope "list" and the list "901234567" sends the pair
    [list_ids[]=901234567]. *)
Theorem array_parameters_repeat_the_key_with_brackets :
  (forall (before after : obj) key l,
      searchParams (VObj (before ++ (key, VArr l) :: after))
      = searchParams (VObj before)
          ++ map (fun v => (key +:+ "[]", to_string v)) l
          ++ searchParams (VObj after))
  /\ (forall (before after : obj) key v,
        non_nullish v = true -> is_array v = false ->
        searchParams (VObj (before ++ (key, v) :: after))
        = searchParams (VObj before) ++ [(key, to_string v)]
            ++ searchParams (VObj after))
  /\ (forall (before after : obj) key v,
        non_nullish v = false ->
        searchParams (VObj (before ++ (key, v) :: after))
        = searchParams (VObj before) ++ searchParams (VObj after))
  /\ (forall apiToken args,
        get args "scope" = VStr "list" ->
        get args "list_id" = VStr "901234567" ->
        exists req k,
          call_tool apiToken "clickup_search_tasks" args = Fetch req k
          /\ req_method req = "GET"
          /\ req_url req
             = baseUrl +:+ "/team/" +:+ to_string (get args "team_id") +:+ "/task"
          /\ In ("list_ids[]", "901234567") (req_searchParams req)).
Proof.
  split; [|split; [|split]].
  - intros before after key l. apply searchParams_insert.
  - intros before after key v Hv Harr. rewrite searchParams_insert.
    unfold append_param. rewrite Hv.
    destruct v; try discriminate; reflexivity.
  - intros before after key v Hv. rewrite searchParams_insert.
    unfold append_param. now rewrite Hv.
  - intros apiToken args Hscope Hlist.
    destruct (get_is_string_object _ _ _ Hscope) as [o ->].
    unfold call_tool. rewrite dispatch_search_tasks.
    unfold search_tasks. cbn [prop bind]. unfold search_by_scope.
    rewrite Hscope, Hlist. cbn [String.eqb Ascii.eqb Bool.eqb truthy negb].
    eexists. eexists. split; [reflexivity|].
    split; [reflexivity|]. split; [reflexivity|].
    cbn [req_searchParams].
    apply (searchParams_has_element _ "list_ids" [VStr "901234567"] (VStr "901234567"));
      [|now left].
    cbn [spread_with own_props fold_left fst snd].
    rewrite !lookup_set_prop. reflexivity.
Qed.

Lemma array_parameters_repeat_the_key_with_brackets_witness :
  searchParams (VObj ([("page", VNum 0)]
                        ++ ("assignees", VArr [VNum 123; VNum 456])
                        :: [("tags", VUndef)]))
  = [("page", "0"); ("assignees[]", "123"); ("assignees[]", "456")]
  /\ searchParams (VObj ([] ++ ("archived", VBool false) :: []))
     = [("archived", "false")]
  /\ searchParams (VObj ([] ++ ("tags", VNull) :: [])) = []
  /\ exists req k,
       call_tool "pk_token" "clickup_search_tasks" Demo.search_in_list
       = Fetch req k
       /\ req_method req = "GET"
       /\ req_url req
          = baseUrl +:+ "/team/"
              +:+ to_string (get Demo.search_in_list "team_id") +:+ "/task"
       /\ In ("list_ids[]", "901234567") (req_searchParams req).
Proof.
  destruct array_parameters_repeat_the_key_with_brackets
    as (Harray & Hscalar & Hnullish & Hsearch).
  split; [|split; [|split]].
  - exact (Harray [("page", VNum 0)] [("tags", VUndef)] "assignees"
             [VNum 123; VNum 456]).
  - exact (Hscalar [] [] "archived" (VBool false) eq_refl eq_refl).
  - exact (Hnullish [] [] "tags" VNull eq_refl).
  - exact (Hsearch "pk_token" Demo.search_in_list eq_refl eq_refl).
Defined.

(** C1 as stated fails: the pairs for [assignees = [123, 456]] are named
    [assignees[]], and the search in a list sends no parameter named
    [list_ids]. *)
Lemma array_parameters_are_not_sent_under_the_bare_key :
  searchParams (VObj [("assignees", VArr [VNum 123; VNum 456])])
  = [("assignees[]", "123"); ("assignees[]", "456")]
  /\ searchParams (VObj [("assignees", VArr [VNum 123; VNum 456])])
     <> [("assignees", "123"); ("assignees", "456")]
  /\ exists req k,
       call_tool "pk_token" "clickup_search_tasks" Demo.search_in_list
       = Fetch req k
       /\ req_searchParams req
          = [("query", "bug"); ("page", "0"); ("include_closed", "false");
             ("list_ids[]", "901234567")]
       /\ ~ In "list_ids" (map fst (req_searchParams req)).
Proof.
  split; [reflexivity|]. split; [discriminate|].
  eexists. eexists. split; [reflexivity|]. split; [reflexivity|].
  simpl. intuition discriminate.
Qed.

Lemma unset_parameter_defaults (o : obj) k unset fallback :
  lookup_prop k o = Some (nullish_or unset fallback) ->
  non_nullish unset = false ->
  non_nullish fallback = true -> is_array fallback = false ->
  get (VObj o) k = fallback /\ In (k, to_string fallback) (searchParams (VObj o)).
Proof.
  unfold nullish_or. intros Hk Hunset Hfb Harr. rewrite Hunset in Hk. split.
  - simpl. now rewrite Hk.
  - now apply searchParams_has_scalar.
Qed.

(** C5: [listTasks] sends the query parameters of [queryParams], in which an
    unset (undefined or null) [archived] is [false], an unset [page] is [0] and
    an unset [include_closed] is [false]; so the request carries
    [archived=false], [page=0] and [include_closed=false]. [searchTasks] does
    the same for its parameters [page] and [include_closed]. *)
Theorem list_and_search_default_unset_parameters :
  (forall apiToken listId params,
      exists k,
        listTasks apiToken listId params
        = Fetch (GET apiToken ("/list/" +:+ to_string listId +:+ "/task")
                   (searchParams (listTasks_queryParams params))) k)
  /\ (forall params,
        (non_nullish (get params "archived") = false ->
         get (listTasks_queryParams params) "archived" = VBool false
         /\ In ("archived", "false") (searchParams (listTasks_queryParams params)))
        /\ (non_nullish (get params "page") = false ->
            get (listTasks_queryParams params) "page" = VNum 0
            /\ In ("page", "0") (searchParams (listTasks_queryParams params)))
        /\ (non_nullish (get params "include_closed") = false ->
            get (listTasks_queryParams params) "include_closed" = VBool false
            /\ In ("include_closed", "false")
                 (searchParams (listTasks_queryParams params))))
  /\ (forall apiToken teamId params,
        non_nullish params = true ->
        exists queryParams k,
          searchTasks apiToken teamId params
          = Fetch (GET apiToken ("/team/" +:+ to_string teamId +:+ "/task")
                     (searchParams queryParams)) k
          /\ (non_nullish (get params "page") = false ->
              get queryParams "page" = VNum 0
              /\ In ("page", "0") (searchParams queryParams))
          /\ (non_nullish (get params "include_closed") = false ->
              get queryParams "include_closed" = VBool false
              /\ In ("include_closed", "false") (searchParams queryParams))).
Proof.
  split; [|split].
  - intros apiToken listId params. eexists. reflexivity.
  - intros params. unfold listTasks_queryParams.
    cbn [spread_with fold_left fst snd].
    split; [|split]; intros Hunset.
    + eapply (unset_parameter_defaults _ "archived" _ (VBool false));
        [rewrite !lookup_set_prop; reflexivity | exact Hunset | reflexivity..].
    + eapply (unset_parameter_defaults _ "page" _ (VNum 0));
        [rewrite !lookup_set_prop; reflexivity | exact Hunset | reflexivity..].
    + eapply (unset_parameter_defaults _ "include_closed" _ (VBool false));
        [rewrite !lookup_set_prop; reflexivity | exact Hunset | reflexivity..].
  - intros apiToken teamId params Hparams.
    assert (Hpage : prop params "page" = Ret (get params "page"))
      by (destruct params; try discriminate; reflexivity).
    assert (Hclosed : prop params "include_closed" = Ret (get params "include_closed"))
      by (destruct params; try discriminate; reflexivity).
    unfold searchTasks, searchTasks_queryParams. rewrite Hpage, Hclosed.
    cbn [bind]. eexists. eexists. split; [reflexivity|].
    cbn [spread_with fold_left fst snd].
    split; intros Hunset.
    + eapply (unset_parameter_defaults _ "page" _ (VNum 0));
        [rewrite !lookup_set_prop; reflexivity | exact Hunset | reflexivity..].
    + eapply (unset_parameter_defaults _ "include_closed" _ (VBool false));
        [rewrite !lookup_set_prop; reflexivity | exact Hunset | reflexivity..].
Qed.

Lemma list_and_search_default_unset_parameters_witness :
  (get (listTasks_queryParams (VObj [("assignees", VArr [VStr "7"])])) "archived"
   = VBool false
   /\ In ("archived", "false")
        (searchParams (listTasks_queryParams (VObj [("assignees", VArr [VStr "7"])]))))
  /\ exists queryParams k,
       searchTasks "pk_token" (VStr "9001") (VObj [("query", VStr "bug")])
       = Fetch (GET "pk_token" ("/team/" +:+ to_string (VStr "9001") +:+ "/task")
                  (searchParams queryParams)) k
       /\ (non_nullish (get (VObj [("query", VStr "bug")]) "page") = false ->
           get queryParams "page" = VNum 0
           /\ In ("page", "0") (searchParams queryParams))
       /\ (non_nullish (get (VObj [("query", VStr "bug")]) "include_closed") = false ->
           get queryParams "include_closed" = VBool false
           /\ In ("include_closed", "false") (searchParams queryParams)).
Proof.
  destruct list_and_search_default_unset_parameters as (_ & Hlist & Hsearch).
  split.
  - destruct (Hlist (VObj [("assignees", VArr [VStr "7"])])) as (Harchived & _ & _).
    apply Harchived. reflexivity.
  - apply (Hsearch "pk_token" (VStr "9001") (VObj [("query", VStr "bug")])).
    reflexivity.
Defined.

(** [searchTasks] has no parameter [archived] and adds none: what it sends
    for a query alone. *)
Lemma searchTasks_sends_no_archived :
  exists k,
    searchTasks "pk_token" (VStr "9001") (VObj [("query", VStr "bug")])
    = Fetch (GET "pk_token" "/team/9001/task"
               [("query", "bug"); ("page", "0"); ("include_closed", "false")]) k.
Proof. eexists. reflexivity. Qed.

(** *** The partial update of a task *)

Lemma lookup_copy_defined args k k' (updates : obj) :
  lookup_prop k (copy_defined args k' updates)
  = if String.eqb k' k && defined (get args k')
    then Some (get args k') else lookup_prop k updates.
Proof.
  unfold copy_defined. destruct (defined (get args k')).
  - rewrite lookup_set_prop. now destruct (String.eqb k' k).
  - now rewrite andb_false_r.
Qed.

Lemma keys_copy_defined args k (updates : obj) x :
  In x (keys (copy_defined args k updates)) -> x = k \/ In x (keys updates).
Proof.
  unfold copy_defined. destruct (defined (get args k)).
  - apply keys_set_prop.
  - now right.
Qed.

Lemma truthy_optional_array v : optional_array v = true -> truthy v = defined v.
Proof. destruct v; try discriminate; reflexivity. Qed.

Lemma lookup_collapse_add_rem args k k' (updates : obj) :
  optional_array (get args (k' +:+ "_add")) = true ->
  optional_array (get args (k' +:+ "_rem")) = true ->
  lookup_prop k (collapse_add_rem args k' updates)
  = if String.eqb k' k
       && (defined (get args (k' +:+ "_add")) || defined (get args (k' +:+ "_rem")))
    then Some (add_rem (get args (k' +:+ "_add")) (get args (k' +:+ "_rem")))
    else lookup_prop k updates.
Proof.
  intros Hadd Hrem. unfold collapse_add_rem, or_else, add_rem.
  pose proof (truthy_optional_array _ Hadd) as Ta.
  pose proof (truthy_optional_array _ Hrem) as Tr.
  destruct (defined (get args (k' +:+ "_add"))) eqn:Da;
    destruct (defined (get args (k' +:+ "_rem"))) eqn:Dr;
    rewrite ?Ta, ?Tr; cbn [orb andb negb];
    rewrite ?Ta, ?Tr; cbn [set_prop String.eqb Ascii.eqb Bool.eqb app];
    rewrite ?lookup_set_prop, ?andb_true_r, ?andb_false_r;
    reflexivity.
Qed.

Lemma keys_collapse_add_rem args k (updates : obj) x :
  In x (keys (collapse_add_rem args k updates)) -> x = k \/ In x (keys updates).
Proof.
  unfold collapse_add_rem. destruct (truthy _).
  - apply keys_set_prop.
  - now right.
Qed.

Ltac norm_keys :=
  change ("assignees" +:+ "_add") with "assignees_add";
  change ("assignees" +:+ "_rem") with "assignees_rem";
  change ("tags" +:+ "_add") with "tags_add";
  change ("tags" +:+ "_rem") with "tags_rem".

(** C4: for arguments in which the four [_add]/[_rem] fields are arrays when
    present, the body of the request that 'clickup_update_task' sends is the
    JSON of the object [updates], one member per property. [updates] has each of
    the eight plain fields exactly when the caller supplied it, with the
    caller's value; it has [assignees] exactly when [assignees_add] or
    [assignees_rem] was supplied, as [{ add?, rem? }] with the sides that were
    supplied; the same for [tags]; and it has no other property. *)
Theorem update_task_sends_exactly_the_supplied_fields :
  forall apiToken args,
    non_nullish args = true ->
    optional_array (get args "assignees_add") = true ->
    optional_array (get args "assignees_rem") = true ->
    optional_array (get args "tags_add") = true ->
    optional_array (get args "tags_rem") = true ->
    (exists k,
        call_tool apiToken "clickup_update_task" args
        = Fetch (mkRequest "PUT"
                   (baseUrl +:+ "/task/" +:+ to_string (get args "task_id")) []
                   (headers apiToken)
                   (Some ("{" +:+ join ","
                                    (flat_map (fun kv => member (fst kv) (snd kv))
                                       (update_task_updates args))
                              +:+ "}"))) k)
    /\ (forall field,
          In field update_scalar_fields ->
          lookup_prop field (update_task_updates args)
          = if defined (get args field) then Some (get args field) else None)
    /\ lookup_prop "assignees" (update_task_updates args)
       = (if defined (get args "assignees_add") || defined (get args "assignees_rem")
          then Some (add_rem (get args "assignees_add") (get args "assignees_rem"))
          else None)
    /\ lookup_prop "tags" (update_task_updates args)
       = (if defined (get args "tags_add") || defined (get args "tags_rem")
          then Some (add_rem (get args "tags_add") (get args "tags_rem"))
          else None)
    /\ (forall field,
          In field (keys (update_task_updates args)) ->
          In field (update_scalar_fields ++ ["assignees"; "tags"])).
Proof.
  intros apiToken args Hargs Haa Har Hta Htr.
  split; [|split; [|split; [|split]]].
  - unfold call_tool. rewrite dispatch_update_task. unfold update_task.
    assert (Hprop : prop args "name" = Ret (get args "name"))
      by (destruct args; try discriminate; reflexivity).
    rewrite Hprop. cbn [bind]. unfold updateTask, request. cbn [bind try_catch].
    eexists. cbn [truthy]. rewrite stringify_object. reflexivity.
  - intros field Hfield. unfold update_task_updates.
    rewrite (lookup_collapse_add_rem args field "tags") by assumption.
    rewrite (lookup_collapse_add_rem args field "assignees") by assumption.
    rewrite !lookup_copy_defined.
    unfold update_scalar_fields in Hfield. simpl in Hfield.
    destruct Hfield as [<-|[<-|[<-|[<-|[<-|[<-|[<-|[<-|[]]]]]]]]];
      norm_keys; cbn [String.eqb Ascii.eqb Bool.eqb andb lookup_prop];
      repeat match goal with
             | |- context [defined ?v] => destruct (defined v)
             end; reflexivity.
  - unfold update_task_updates.
    rewrite (lookup_collapse_add_rem args "assignees" "tags") by assumption.
    rewrite (lookup_collapse_add_rem args "assignees" "assignees") by assumption.
    rewrite !lookup_copy_defined.
    norm_keys; cbn [String.eqb Ascii.eqb Bool.eqb andb lookup_prop].
    reflexivity.
  - unfold update_task_updates.
    rewrite (lookup_collapse_add_rem args "tags" "tags") by assumption.
    norm_keys; cbn [String.eqb Ascii.eqb Bool.eqb andb].
    destruct (defined (get args "tags_add") || defined (get args "tags_rem"));
      [reflexivity|].
    rewrite (lookup_collapse_add_rem args "tags" "assignees") by assumption.
    rewrite !lookup_copy_defined.
    norm_keys; cbn [String.eqb Ascii.eqb Bool.eqb andb lookup_prop].
    reflexivity.
  - intros field Hfield. unfold update_task_updates in Hfield.
    repeat match type of Hfield with
           | In _ (keys (collapse_add_rem _ _ _)) =>
               apply keys_collapse_add_rem in Hfield;
               destruct Hfield as [->|Hfield]; [simpl; tauto|]
           | In _ (keys (copy_defined _ _ _)) =>
               apply keys_copy_defined in Hfield;
               destruct Hfield as [->|Hfield]; [simpl; tauto|]
           end.
    destruct Hfield.
Qed.

Lemma update_task_sends_exactly_the_supplied_fields_witness :
  (exists k,
      call_tool "pk_token" "clickup_update_task" Demo.rename_and_untag
      = Fetch (mkRequest "PUT" "https://api.clickup.com/api/v2/task/t1" []
                 (headers "pk_token")
                 (Some ("{" +:+ dq +:+ "name" +:+ dq +:+ ":" +:+ dq +:+ "New name" +:+ dq
                          +:+ "," +:+ dq +:+ "tags" +:+ dq +:+ ":{" +:+ dq +:+ "rem" +:+ dq
                          +:+ ":[" +:+ dq +:+ "stale" +:+ dq +:+ "]}}"))) k)
  /\ lookup_prop "status" (update_task_updates Demo.rename_and_untag) = None
  /\ lookup_prop "assignees" (update_task_updates Demo.rename_and_untag) = None
  /\ lookup_prop "tags" (update_task_updates Demo.rename_and_untag)
     = Some (VObj [("rem", VArr [VStr "stale"])]).
Proof.
  destruct (update_task_sends_exactly_the_supplied_fields
              "pk_token" Demo.rename_and_untag
              eq_refl eq_refl eq_refl eq_refl eq_refl)
    as (Hsent & Hscalar & Hassignees & Htags & _).
  split; [|split; [|split]].
  - exact Hsent.
  - apply (Hscalar "status"). simpl. tauto.
  - exact Hassignees.
  - exact Htags.
Defined.

(** *** The workspace tree *)

Lemma map_sync_pure {X A B : Type} (f : A -> Prog B) (h : X -> A) (g : X -> B)
    (xs : list X) :
  (forall x, In x xs -> f (h x) = Ret (g x)) ->
  map_sync f (map h xs) = Ret (map g xs).
Proof.
  induction xs as [|x xs IH]; intros H; [reflexivity|].
  cbn [map map_sync]. rewrite (H x (or_introl eq_refl)). cbn [bind].
  rewrite IH; [reflexivity|]. intros y Hy. apply H. now right.
Qed.

Lemma filter_sync_pure {X A : Type} (f : A -> Prog bool) (h : X -> A)
    (g : A -> bool) (xs : list X) :
  (forall x, In x xs -> f (h x) = Ret (g (h x))) ->
  filter_sync f (map h xs) = Ret (List.filter g (map h xs)).
Proof.
  induction xs as [|x xs IH]; intros H; [reflexivity|].
  cbn [map filter_sync List.filter]. rewrite (H x (or_introl eq_refl)). cbn [bind].
  rewrite IH; [|intros y Hy; apply H; now right]. cbn [bind].
  now destruct (g (h x)).
Qed.

Lemma embedded_lists_objects folder x :
  folder_ok folder = true -> In x (embedded_lists folder) -> exists o, x = VObj o.
Proof.
  unfold folder_ok, embedded_lists.
  destruct (get (VObj folder) "lists") as [| | | | |ls|]; try (intros _ []).
  intros Hall Hx. rewrite forallb_forall in Hall.
  specialize (Hall x Hx). destruct x; try discriminate. eauto.
Qed.

Lemma lists_of_folder_ok folder :
  folder_ok folder = true ->
  lists_of_folder (VObj folder) = Ret (embedded_lists folder).
Proof.
  unfold folder_ok, embedded_lists, lists_of_folder. cbn [prop bind].
  unfold or_else.
  destruct (get (VObj folder) "lists") as [| |b|n|s|ls|o]; cbn [truthy negb].
  - reflexivity.
  - reflexivity.
  - intros H. apply negb_true_iff in H. now rewrite H.
  - intros H. apply negb_true_iff in H. now rewrite H.
  - intros H. apply negb_true_iff in H. now rewrite H.
  - reflexivity.
  - discriminate.
Qed.

Lemma folder_with_lists_ok folder :
  folder_ok folder = true ->
  folder_with_lists (VObj folder) = Ret (tree_folder folder).
Proof.
  intros Hok. unfold folder_with_lists. cbn [prop bind].
  rewrite (lists_of_folder_ok _ Hok). cbn [bind].
  rewrite <- (map_id (embedded_lists folder)) at 1.
  rewrite (map_sync_pure id_and_name (fun x => x) id_name); [reflexivity|].
  intros x Hx. destruct (embedded_lists_objects _ _ Hok Hx) as [o ->]. reflexivity.
Qed.

Lemma list_ids_of_folder_ok folder :
  folder_ok folder = true ->
  list_ids_of_folder (VObj folder)
  = Ret (map (fun l => get l "id") (embedded_lists folder)).
Proof.
  intros Hok. unfold list_ids_of_folder.
  rewrite (lists_of_folder_ok _ Hok). cbn [bind].
  rewrite <- (map_id (embedded_lists folder)) at 1.
  apply (map_sync_pure (fun list => prop list "id") (fun x => x)).
  intros x Hx. destruct (embedded_lists_objects _ _ Hok Hx) as [o ->]. reflexivity.
Qed.

Section WorkspaceFacts.
Variable apiToken : string.
Variable fetch : Request -> FetchOutcome.
Variable completion : list (Settled value) -> list nat.
Variable teams : list obj.
Variables spaces_of folders_of lists_of : obj -> list obj.

Local Abbreviation run := (Async.run fetch completion).

Lemma run_getFolders_serves spaceId data :
  serves fetch
    (GET apiToken ("/space/" +:+ to_string spaceId +:+ "/folder")
       [("archived", "false")]) data ->
  run (getFolders apiToken spaceId VUndef) = Fulfilled data.
Proof.
  intros H.
  change (getFolders apiToken spaceId VUndef)
    with (try_catch
            (request apiToken "GET" ("/space/" +:+ to_string spaceId +:+ "/folder")
               VUndef (VObj [("archived", VBool false)]))
            (fun _ => Ret (VObj [("folders", VArr [])]))).
  rewrite run_try_catch.
  now rewrite (run_request_serves apiToken fetch completion "GET" _ VUndef
                 (VObj [("archived", VBool false)]) data H).
Qed.

Lemma run_space space :
  serves fetch
    (GET apiToken ("/space/" +:+ to_string (get (VObj space) "id") +:+ "/folder")
       [("archived", "false")])
    (keyed "folders" (folders_of space)) ->
  forallb folder_ok (folders_of space) = true ->
  serves fetch
    (GET apiToken ("/space/" +:+ to_string (get (VObj space) "id") +:+ "/list") [])
    (keyed "lists" (lists_of space)) ->
  run (space_with_folders_and_lists apiToken (VObj space))
  = Fulfilled (tree_space folders_of lists_of space).
Proof.
  intros Hfolders Hok Hlists. rewrite forallb_forall in Hok.
  unfold space_with_folders_and_lists. cbn [prop bind].
  rewrite (run_bind_fulfilled _ _ _ _ _ (run_getFolders_serves _ _ Hfolders)).
  unfold keyed at 1.
  cbn [destructure get lookup_prop String.eqb Ascii.eqb Bool.eqb as_array bind].
  rewrite (map_sync_pure folder_with_lists VObj tree_folder);
    [|intros f Hf; apply folder_with_lists_ok; now apply Hok].
  cbn [bind].
  rewrite (run_bind_fulfilled _ _ _ _ _
             (run_request_serves apiToken fetch completion "GET" _ VUndef VUndef
                _ Hlists)).
  unfold keyed at 1.
  cbn [destructure get lookup_prop String.eqb Ascii.eqb Bool.eqb as_array bind].
  rewrite (map_sync_pure list_ids_of_folder VObj
             (fun f => map (fun l => get l "id") (embedded_lists f)));
    [|intros f Hf; apply list_ids_of_folder_ok; now apply Hok].
  cbn [bind].
  rewrite (filter_sync_pure _ VObj
             (fun l => negb (set_has
                               (concat (map (fun f => map (fun l => get l "id")
                                                        (embedded_lists f))
                                          (folders_of space)))
                               (get l "id"))));
    [|reflexivity].
  cbn [bind run]. unfold tree_space, folderless, ids_in_folders.
  now rewrite flat_map_concat_map.
Qed.

Hypothesis backend : backend_serves teams spaces_of folders_of lists_of fetch apiToken.

Lemma run_team team :
  In team teams ->
  run (team_with_spaces apiToken (VObj team))
  = Fulfilled (tree_team spaces_of folders_of lists_of team).
Proof.
  intros Hteam. destruct backend as (_ & Hspaces & Hspace).
  unfold team_with_spaces. cbn [prop bind].
  rewrite (run_bind_fulfilled _ _ _ _ _
             (run_request_serves apiToken fetch completion "GET" _ VUndef VUndef
                _ (Hspaces team Hteam))).
  unfold keyed at 1.
  cbn [destructure get lookup_prop String.eqb Ascii.eqb Bool.eqb as_array bind].
  rewrite map_map.
  assert (Heach : forall space, In space (spaces_of team) ->
             run (space_with_folders_and_lists apiToken (VObj space))
             = Fulfilled (tree_space folders_of lists_of space)).
  { intros space Hspace_in.
    destruct (Hspace team space Hteam Hspace_in) as (Hf & Hok & Hl).
    now apply run_space. }
  rewrite (run_bind_fulfilled _ _ _ _ _
             (run_promise_all_map fetch completion _
                (tree_space folders_of lists_of) (spaces_of team) Heach)).
  reflexivity.
Qed.

Lemma run_getWorkspaceStructure :
  run (getWorkspaceStructure apiToken)
  = Fulfilled (workspace_tree teams spaces_of folders_of lists_of).
Proof.
  pose proof backend as (Hteams & _ & _).
  unfold getWorkspaceStructure, getAuthorizedTeams.
  rewrite (run_bind_fulfilled _ _ _ _ _
             (run_request_serves apiToken fetch completion "GET" _ VUndef VUndef
                _ Hteams)).
  unfold keyed at 1.
  cbn [destructure get lookup_prop String.eqb Ascii.eqb Bool.eqb as_array bind].
  rewrite map_map.
  rewrite (run_bind_fulfilled _ _ _ _ _
             (run_promise_all_map fetch completion _
                (tree_team spaces_of folders_of lists_of) teams run_team)).
  reflexivity.
Qed.
End WorkspaceFacts.

Section WorkspaceFailure.
Variable apiToken : string.
Variable fetch : Request -> FetchOutcome.
Variable completion : list (Settled value) -> list nat.
Variable teams : list obj.
Variable spaces_of : obj -> list obj.

Local Abbreviation run := (Async.run fetch completion).

(** A failure of the work on one space fails the whole structure: the error
    that [Promise.all] reports is the one of a promise that was rejected. *)
Lemma run_getWorkspaceStructure_rejected team space e :
  serves fetch (GET apiToken "/team" []) (keyed "teams" teams) ->
  serves fetch
    (GET apiToken ("/team/" +:+ to_string (get (VObj team) "id") +:+ "/space") [])
    (keyed "spaces" (spaces_of team)) ->
  In team teams -> In space (spaces_of team) ->
  run (space_with_folders_and_lists apiToken (VObj space)) = Rejected e ->
  exists e', run (getWorkspaceStructure apiToken) = Rejected e'.
Proof.
  intros Hteams Hspaces Hteam Hspace Hfail.
  assert (Hteam_fails : exists e1,
             run (team_with_spaces apiToken (VObj team)) = Rejected e1).
  { unfold team_with_spaces. cbn [prop bind].
    rewrite (run_bind_fulfilled _ _ _ _ _
               (run_request_serves apiToken fetch completion "GET" _ VUndef VUndef
                  _ Hspaces)).
    unfold keyed at 1.
    cbn [destructure get lookup_prop String.eqb Ascii.eqb Bool.eqb as_array bind].
    destruct (run_promise_all_rejected fetch completion
                (map (space_with_folders_and_lists apiToken)
                   (map VObj (spaces_of team)))
                (space_with_folders_and_lists apiToken (VObj space)) e)
      as [e1 He1]; [|exact Hfail|].
    - apply in_map. now apply in_map.
    - exists e1. now apply run_bind_rejected. }
  destruct Hteam_fails as [e1 He1].
  unfold getWorkspaceStructure, getAuthorizedTeams.
  rewrite (run_bind_fulfilled _ _ _ _ _
             (run_request_serves apiToken fetch completion "GET" _ VUndef VUndef
                _ Hteams)).
  unfold keyed at 1.
  cbn [destructure get lookup_prop String.eqb Ascii.eqb Bool.eqb as_array bind].
  destruct (run_promise_all_rejected fetch completion
              (map (team_with_spaces apiToken) (map VObj teams))
              (team_with_spaces apiToken (VObj team)) e1)
    as [e2 He2]; [|exact He1|].
  - apply in_map. now apply in_map.
  - exists e2. now apply run_bind_rejected.
Qed.
End WorkspaceFailure.

(** C2: when the backend answers the requests for the teams, for the spaces of
    each team, for the folders (with their lists) of each space and for all the
    lists of each space, [getWorkspaceStructure] returns [workspace_tree]: the
    teams in the order of the teams response, each with its spaces in the order
    of its spaces response; each space with its folders, every folder reduced
    to [id], [name] and its embedded lists reduced to [id] and [name]; and
    under [lists] the lists of the space whose [id] no folder embeds. This
    holds for every order in which the parallel promises settle. *)
Theorem workspace_structure_is_the_tree_in_response_order :
  forall apiToken fetch completion teams spaces_of folders_of lists_of,
    backend_serves teams spaces_of folders_of lists_of fetch apiToken ->
    run fetch completion (getWorkspaceStructure apiToken)
    = Fulfilled (workspace_tree teams spaces_of folders_of lists_of).
Proof.
  intros apiToken fetch completion teams spaces_of folders_of lists_of Hbackend.
  now apply run_getWorkspaceStructure.
Qed.

Lemma workspace_structure_is_the_tree_in_response_order_witness :
  run Demo.backend Demo.last_first (getWorkspaceStructure "pk_token")
  = Fulfilled
      (VObj [("teams",
              VArr [VObj [("id", VStr "T1"); ("name", VStr "One");
                          ("spaces",
                           VArr [VObj [("id", VStr "S"); ("name", VStr "Space");
                                       ("folders",
                                        VArr [VObj [("id", VStr "F");
                                                    ("name", VStr "Folder");
                                                    ("lists",
                                                     VArr [VObj [("id", VStr "L1");
                                                                 ("name", VStr "Backlog")]])]]);
                                       ("lists", VArr [VObj Demo.L2])]])];
                    VObj [("id", VStr "T2"); ("name", VStr "Two");
                          ("spaces",
                           VArr [VObj [("id", VStr "S"); ("name", VStr "Space");
                                       ("folders",
                                        VArr [VObj [("id", VStr "F");
                                                    ("name", VStr "Folder");
                                                    ("lists",
                                                     VArr [VObj [("id", VStr "L1");
                                                                 ("name", VStr "Backlog")]])]]);
                                       ("lists", VArr [VObj Demo.L2])]])]])]).
Proof.
  refine (workspace_structure_is_the_tree_in_response_order
            "pk_token" Demo.backend Demo.last_first
            [Demo.T1; Demo.T2] (fun _ => [Demo.S])
            (fun _ => [Demo.F]) (fun _ => [Demo.L1; Demo.L2]) _).
  split; [|split].
  - vm_compute. split; reflexivity.
  - intros team [<-|[<-|[]]]; vm_compute; split; reflexivity.
  - intros team space _ [<-|[]]. split; [|split].
    + vm_compute. split; reflexivity.
    + reflexivity.
    + vm_compute. split; reflexivity.
Defined.

(** ** Further properties of the client and of the dispatcher *)

Import Shape.

(** *** What every request looks like *)

Lemma every_request_bind {A B : Type} (P : Request -> Prop) (p : Prog A)
    (f : A -> Prog B) :
  every_request P p -> (forall a, every_request P (f a)) ->
  every_request P (bind p f).
Proof.
  revert B f. induction p as [A a|A e|A req k IH|A tasks k IH]; intros B f Hp Hf.
  - apply Hf.
  - exact I.
  - destruct Hp as [Hreq Hk]. split; [exact Hreq|]. intros out. now apply IH.
  - destruct Hp as [Htasks Hk]. split; [exact Htasks|]. intros out. now apply IH.
Qed.

Lemma every_request_try_catch {A : Type} (P : Request -> Prop) (p : Prog A)
    (h : JsError -> Prog A) :
  every_request P p -> (forall e, every_request P (h e)) ->
  every_request P (try_catch p h).
Proof.
  induction p as [A a|A e|A req k IH|A tasks k IH]; intros Hp Hh.
  - exact I.
  - apply Hh.
  - destruct Hp as [Hreq Hk]. split; [exact Hreq|]. intros out. now apply IH.
  - destruct Hp as [Htasks Hk]. split; [exact Htasks|]. intros out. now apply IH.
Qed.

Lemma every_request_prop (P : Request -> Prop) v k : every_request P (prop v k).
Proof. destruct v; exact I. Qed.

Lemma every_request_destructure (P : Request -> Prop) v k :
  every_request P (destructure v k).
Proof. destruct v; exact I. Qed.

Lemma every_request_as_array (P : Request -> Prop) m v :
  every_request P (as_array m v).
Proof. destruct v; exact I. Qed.

Lemma every_request_map_sync {A B : Type} (P : Request -> Prop)
    (f : A -> Prog B) (l : list A) :
  (forall x, every_request P (f x)) -> every_request P (map_sync f l).
Proof.
  intros Hf. induction l as [|x l IH]; [exact I|].
  cbn [map_sync]. apply every_request_bind; [apply Hf|]. intros y.
  apply every_request_bind; [exact IH|]. intros ys. exact I.
Qed.

Lemma every_request_filter_sync {A : Type} (P : Request -> Prop)
    (f : A -> Prog bool) (l : list A) :
  (forall x, every_request P (f x)) -> every_request P (filter_sync f l).
Proof.
  intros Hf. induction l as [|x l IH]; [exact I|].
  cbn [filter_sync]. apply every_request_bind; [apply Hf|]. intros y.
  apply every_request_bind; [exact IH|]. intros ys. exact I.
Qed.

Lemma every_request_promise_all {X : Type} (P : Request -> Prop)
    (f : X -> Prog value) (l : list X) :
  (forall x, every_request P (f x)) -> every_request P (promise_all (map f l)).
Proof.
  intros Hf. unfold promise_all. cbn [every_request]. split.
  - induction l as [|x l IH]; [exact I|]. split; [apply Hf | exact IH].
  - intros [vs|e]; exact I.
Qed.

Lemma every_request_request apiToken method path body queryParams :
  ((method = "GET" \/ method = "DELETE") /\ truthy body = false)
  \/ ((method = "POST" \/ method = "PUT") /\ exists o, body = VObj o) ->
  every_request (client_request apiToken)
    (request apiToken method path body queryParams).
Proof.
  intros Hshape. unfold request. split.
  - split; [reflexivity|].
    cbn [req_method req_body].
    destruct Hshape as [[Hm Hb]|[Hm [o ->]]].
    + left. split; [exact Hm|]. now rewrite Hb.
    + right. split; [exact Hm|]. cbn [truthy]. rewrite stringify_object. eauto.
  - intros [e|r]; [exact I|].
    destruct (resp_json r); [|exact I]. now destruct (negb (resp_ok r)).
Qed.

Ltac request_shape :=
  first
    [ left; split; [first [left; reflexivity | right; reflexivity] | reflexivity]
    | right; split; [first [left; reflexivity | right; reflexivity]
                    | eexists; reflexivity] ].

Ltac every_step :=
  first
    [ exact I
    | apply every_request_prop
    | apply every_request_destructure
    | apply every_request_as_array
    | apply every_request_request; request_shape
    | apply every_request_bind; [|intros ?]
    | apply every_request_try_catch; [|intros ?]
    | apply every_request_map_sync; intros ?
    | apply every_request_filter_sync; intros ?
    | apply every_request_promise_all; intros ?
    | match goal with
      | |- every_request _ (if ?b then _ else _) => destruct b
      | |- every_request _ (match ?v with _ => _ end) => destruct v
      end ].

(** X1: every request that a tool call can send, in any branch and after any
    answer, carries the headers [Authorization: <token>] and
    [Content-Type: application/json], and is a GET or DELETE without body or a
    POST or PUT with one. *)
Theorem every_request_of_a_tool_call_is_a_client_request :
  forall apiToken name args,
    every_request (client_request apiToken) (call_tool apiToken name args).
Proof.
  intros apiToken name args. unfold call_tool.
  apply every_request_try_catch; [|intros e; exact I].
  unfold dispatch.
  repeat match goal with
         | |- every_request _ (if String.eqb name ?s then _ else _) =>
             destruct (String.eqb name s)
         end.
  - unfold create_task, createTask. repeat every_step.
  - unfold get_task, getTask. repeat every_step.
  - unfold update_task, updateTask. repeat every_step.
  - unfold delete_task, deleteTask. repeat every_step.
  - unfold list_tasks, listTasks. repeat every_step.
  - unfold search_tasks, search_by_scope, searchTasks, searchTasks_queryParams.
    repeat every_step.
  - unfold add_comment, createComment. repeat every_step.
  - unfold list_comments, getComments. repeat every_step.
  - unfold add_dependency, addDependency, dependency_request. repeat every_step.
  - unfold remove_dependency, deleteDependency. repeat every_step.
  - unfold list_dependencies, getTaskWithDependencies, getTask. repeat every_step.
  - unfold get_workspace_structure, getWorkspaceStructure, getAuthorizedTeams,
      team_with_spaces, getSpaces, space_with_folders_and_lists, getFolders,
      getLists, folder_with_lists, list_ids_of_folder, lists_of_folder,
      id_and_name.
    repeat every_step.
  - exact I.
Qed.

(** *** How many requests a tool sends *)

Lemma no_request_try_catch {A : Type} (p : Prog A) (h : JsError -> Prog A) :
  no_request p -> (forall e, no_request (h e)) -> no_request (try_catch p h).
Proof. destruct p; intros Hp Hh; try destruct Hp; [exact I | apply Hh]. Qed.

Lemma no_request_bind {A B : Type} (p : Prog A) (f : A -> Prog B) :
  no_request p -> (forall a, no_request (f a)) -> no_request (bind p f).
Proof. destruct p; intros Hp Hf; try destruct Hp; [apply Hf | exact I]. Qed.

Lemma no_request_prop v k : no_request (prop v k).
Proof. destruct v; exact I. Qed.

(** One call of [request], then work that sends nothing, inside a [try]. *)
Lemma one_request_then_none apiToken method path body queryParams
    (f : value -> Prog value) (h : JsError -> Prog value) :
  (forall v, no_request (f v)) -> (forall e, no_request (h e)) ->
  at_most_one_request
    (try_catch (bind (request apiToken method path body queryParams) f) h).
Proof.
  intros Hf Hh. unfold request. cbn [bind try_catch at_most_one_request].
  intros [e|r]; [apply Hh|].
  destruct (resp_json r); [|apply Hh].
  destruct (negb (resp_ok r)); [apply Hh|].
  cbn [bind]. apply no_request_try_catch; [apply Hf | apply Hh].
Qed.

Ltac one_request :=
  first
    [ exact I
    | apply one_request_then_none;
      [intros ?; repeat first [exact I | apply no_request_bind; [|intros ?]
                              | apply no_request_prop]
      | intros ?; exact I] ].

(** X2: a tool call other than 'clickup_get_workspace_structure' sends one
    request at most: whatever the answer, it ends without a second request (no
    retry, no follow-up). *)
Theorem a_tool_call_other_than_the_structure_sends_one_request_at_most :
  forall apiToken name args,
    name <> "clickup_get_workspace_structure" ->
    at_most_one_request (call_tool apiToken name args).
Proof.
  intros apiToken name args Hname. unfold call_tool, dispatch.
  repeat match goal with
         | |- context [String.eqb name ?s] =>
             destruct (String.eqb_spec name s) as [->|_]
         end;
    try (now destruct Hname).
  - unfold create_task, createTask. destruct args; cbn [prop bind try_catch]; one_request.
  - unfold get_task, getTask. destruct args; cbn [prop bind try_catch]; one_request.
  - unfold update_task, updateTask. destruct args; cbn [prop bind try_catch]; one_request.
  - unfold delete_task, deleteTask. destruct args; cbn [prop bind try_catch]; one_request.
  - unfold list_tasks, listTasks. destruct args; cbn [prop bind try_catch]; one_request.
  - unfold search_tasks, search_by_scope, searchTasks, searchTasks_queryParams.
    destruct args; cbn [prop bind try_catch]; try exact I.
    destruct (get (VObj o) "scope"); cbn [prop bind try_catch]; try exact I.
    repeat match goal with
           | |- context [if ?b then _ else _] =>
               destruct b; cbn [prop bind try_catch]; try exact I
           end; one_request.
  - unfold add_comment, createComment. destruct args; cbn [prop bind try_catch]; one_request.
  - unfold list_comments, getComments. destruct args; cbn [prop bind try_catch]; one_request.
  - unfold add_dependency, addDependency. destruct args; cbn [prop bind try_catch]; one_request.
  - unfold remove_dependency, deleteDependency. destruct args; cbn [prop bind try_catch]; one_request.
  - unfold list_dependencies, getTaskWithDependencies, getTask.
    destruct args; cbn [prop bind try_catch]; one_request.
  - exact I.
Qed.

(** *** What a tool returns *)

Section ToolRuns.
Variable apiToken : string.
Variable fetch : Request -> FetchOutcome.
Variable completion : list (Settled value) -> list nat.

Local Abbreviation run := (Async.run fetch completion).

Lemma text_ending_bind {A : Type} (p : Prog A) (f : A -> Prog value) :
  (forall a v, run (f a) = Fulfilled v -> exists text, v = text_result text) ->
  forall v, run (bind p f) = Fulfilled v -> exists text, v = text_result text.
Proof.
  intros Hf v. rewrite run_bind. destruct (run p) as [a|e]; [apply Hf | discriminate].
Qed.

Lemma text_ending_ret text v :
  run (Ret (text_result text)) = Fulfilled v -> exists text', v = text_result text'.
Proof. intros [= <-]. eauto. Qed.

(** X3: the result of a tool call is [{ content: [{ type: 'text', text }] }]
    when the body of the [try] block succeeds, and the error result, with
    [isError: true], when it fails; there is no third form. *)
Theorem a_tool_result_is_a_text_or_an_error :
  forall name args,
    (exists text,
        run (dispatch apiToken name args) = Fulfilled (text_result text)
        /\ run (call_tool apiToken name args) = Fulfilled (text_result text))
    \/ (exists e,
          run (dispatch apiToken name args) = Rejected e
          /\ run (call_tool apiToken name args) = Fulfilled (error_result e)).
Proof.
  intros name args.
  assert (Htext : forall v, run (dispatch apiToken name args) = Fulfilled v ->
                            exists text, v = text_result text).
  { unfold dispatch.
    repeat match goal with
           | |- context [String.eqb name ?s] => destruct (String.eqb name s)
           end;
      try (unfold create_task, get_task, update_task, delete_task, list_tasks,
             search_tasks, add_comment, list_comments, add_dependency,
             remove_dependency, list_dependencies, get_workspace_structure;
           repeat (apply text_ending_bind; intros ?);
           apply text_ending_ret).
    discriminate. }
  unfold call_tool. rewrite run_try_catch.
  destruct (run (dispatch apiToken name args)) as [v|e] eqn:Hrun.
  - left. destruct (Htext v eq_refl) as [text ->]. eauto.
  - right. eauto.
Qed.

(** A tool that starts with a request: what happens after the answer. *)
Lemma run_after_served method path body queryParams
    (f : value -> Prog value) (h : JsError -> Prog value) req k data :
  try_catch (bind (request apiToken method path body queryParams) f) h
  = Fetch req k ->
  serves fetch req data ->
  run (try_catch (bind (request apiToken method path body queryParams) f) h)
  = run (try_catch (f data) h).
Proof.
  intros Hfetch Hserves. apply (f_equal first_request) in Hfetch.
  unfold request in *. cbn [bind try_catch first_request] in Hfetch.
  injection Hfetch as <-. cbn [bind try_catch Async.run].
  unfold serves in Hserves.
  destruct (fetch _) as [e|r]; [destruct Hserves|].
  destruct Hserves as [Hok Hjson]. now rewrite Hjson, Hok.
Qed.

Lemma run_after_failed method path body queryParams
    (f : value -> Prog value) (h : JsError -> Prog value) req k e :
  try_catch (bind (request apiToken method path body queryParams) f) h
  = Fetch req k ->
  fails_with (fetch req) e ->
  run (try_catch (bind (request apiToken method path body queryParams) f) h)
  = run (h e).
Proof.
  intros Hfetch Hfails. apply (f_equal first_request) in Hfetch.
  unfold request in *. cbn [bind try_catch first_request] in Hfetch.
  injection Hfetch as <-. cbn [bind try_catch Async.run].
  inversion Hfails as [e' Heq|r e' Hjson Heq|r data Hjson Hok Heq]; subst.
  - reflexivity.
  - now rewrite Hjson.
  - now rewrite Hjson, Hok.
Qed.

Ltac tool_cases H :=
  unfold call_tool, dispatch in *;
  cbn [String.eqb Ascii.eqb Bool.eqb] in *;
  unfold create_task, createTask, get_task, getTask, update_task, updateTask,
    delete_task, deleteTask, list_tasks, listTasks, search_tasks, add_comment,
    createComment, list_comments, getComments, add_dependency, addDependency,
    remove_dependency, deleteDependency, list_dependencies,
    getTaskWithDependencies, getTask in *;
  match goal with
  | |- context [prop ?args _] => destruct args
  end;
  cbn [prop bind try_catch] in *; try discriminate H.

Ltac search_cases H :=
  unfold search_by_scope, searchTasks, searchTasks_queryParams in *;
  match goal with
  | |- context [get ?a "scope"] => destruct (get a "scope")
  end;
  cbn [prop bind try_catch] in *; try discriminate H;
  repeat match goal with
         | |- context [if ?b then _ else _] =>
             destruct b; cbn [prop bind try_catch] in *; try discriminate H
         end.

(** X4: for the eight tools that create, read, update, list or search, when
    the backend serves the request of the tool with the JSON [data], the text
    of the result is [JSON.stringify(data, null, 2)]. *)
Theorem a_pass_through_tool_returns_the_answer_of_the_backend :
  forall name args req k data,
    In name pass_through_tools ->
    call_tool apiToken name args = Fetch req k ->
    serves fetch req data ->
    run (call_tool apiToken name args) = Fulfilled (text_result (pretty_json data)).
Proof.
  intros name args req k data Hname Hfetch Hserves.
  unfold pass_through_tools in Hname. simpl in Hname.
  destruct Hname as [<-|[<-|[<-|[<-|[<-|[<-|[<-|[<-|[]]]]]]]]];
    tool_cases Hfetch; try search_cases Hfetch;
    now rewrite (run_after_served _ _ _ _ _ _ _ _ _ Hfetch Hserves).
Qed.

(** X5: when the backend serves the request of 'clickup_delete_task' or of
    'clickup_remove_dependency', the result is the fixed confirmation with the
    task identifier; the JSON of the answer is not looked at. *)
Theorem a_removal_is_confirmed_whatever_the_answer_holds :
  forall args req k data,
    (call_tool apiToken "clickup_delete_task" args = Fetch req k ->
     serves fetch req data ->
     run (call_tool apiToken "clickup_delete_task" args)
     = Fulfilled
         (text_result
            (VStr ("Task " +:+ to_string (get args "task_id")
                     +:+ " has been deleted successfully."))))
    /\ (call_tool apiToken "clickup_remove_dependency" args = Fetch req k ->
        serves fetch req data ->
        run (call_tool apiToken "clickup_remove_dependency" args)
        = Fulfilled
            (text_result
               (VStr ("Dependency removed successfully from task "
                        +:+ to_string (get args "task_id"))))).
Proof.
  intros args req k data. split; intros Hfetch Hserves;
    tool_cases Hfetch;
    now rewrite (run_after_served _ _ _ _ _ _ _ _ _ Hfetch Hserves).
Qed.

(** X6: for every tool, when the request it starts with fails (the transport
    fails, the body is not JSON whatever the status, or the status is outside
    200-299), the result is the error result with the message of that
    error. *)
Theorem a_failed_request_is_reported_with_its_error :
  forall name args req k e,
    call_tool apiToken name args = Fetch req k ->
    fails_with (fetch req) e ->
    run (call_tool apiToken name args) = Fulfilled (error_result e).
Proof.
  intros name args req k e Hfetch Hfails.
  unfold call_tool, dispatch in *.
  repeat match goal with
         | |- context [String.eqb name ?s] =>
             destruct (String.eqb_spec name s) as [->|_]
         end; try discriminate Hfetch.
  12: { apply (f_equal first_request) in Hfetch.
        cbn in Hfetch. injection Hfetch as <-.
        rewrite run_try_catch. unfold get_workspace_structure, getWorkspaceStructure,
          getAuthorizedTeams.
        rewrite run_bind, run_bind.
        now rewrite (run_request_fails apiToken fetch completion "GET" "/team"
                       VUndef VUndef e Hfails). }
  all: tool_cases Hfetch; try search_cases Hfetch;
    now rewrite (run_after_failed _ _ _ _ _ _ _ _ _ Hfetch Hfails).
Qed.

(** X7: 'clickup_list_dependencies' answers with the JSON of
    [{ task_id, task_name, dependencies, linked_tasks }] taken from the task,
    [dependencies] and [linked_tasks] being [[]] when the task has none; a
    task that is [null] gives the error result of a [TypeError]. *)
Theorem dependencies_are_reduced_to_four_fields :
  forall args req k task,
    call_tool apiToken "clickup_list_dependencies" args = Fetch req k ->
    serves fetch req task ->
    (non_nullish task = true ->
     run (call_tool apiToken "clickup_list_dependencies" args)
     = Fulfilled
         (text_result
            (pretty_json
               (VObj [("task_id", get task "id");
                      ("task_name", get task "name");
                      ("dependencies", or_else (get task "dependencies") (VArr []));
                      ("linked_tasks", or_else (get task "linked_tasks") (VArr []))]))))
    /\ (non_nullish task = false ->
        exists message,
          run (call_tool apiToken "clickup_list_dependencies" args)
          = Fulfilled (error_result (TypeError message))).
Proof.
  intros args req k task Hfetch Hserves.
  tool_cases Hfetch;
    rewrite (run_after_served _ _ _ _ _ _ _ _ _ Hfetch Hserves);
    (split; intros Htask;
     [destruct task; try discriminate Htask; reflexivity
     |destruct task; try discriminate Htask; eexists; reflexivity]).
Qed.
End ToolRuns.

Lemma a_pass_through_tool_returns_the_answer_of_the_backend_witness :
  run (Sample.answers (VObj [("id", VStr "abc"); ("name", VStr "Fix login")])) Demo.in_order
    (call_tool "pk_token" "clickup_get_task" (VObj [("task_id", VStr "abc")]))
  = Fulfilled
      (text_result
         (VStr ("{" +:+ nl +:+ "  " +:+ dq +:+ "id" +:+ dq +:+ ": " +:+ dq +:+ "abc" +:+ dq
                  +:+ "," +:+ nl +:+ "  " +:+ dq +:+ "name" +:+ dq +:+ ": " +:+ dq
                  +:+ "Fix login" +:+ dq +:+ nl +:+ "}"))).
Proof.
  refine (a_pass_through_tool_returns_the_answer_of_the_backend "pk_token"
            (Sample.answers (VObj [("id", VStr "abc"); ("name", VStr "Fix login")]))
            Demo.in_order "clickup_get_task" (VObj [("task_id", VStr "abc")])
            _ _ (VObj [("id", VStr "abc"); ("name", VStr "Fix login")]) _ eq_refl _).
  - simpl. tauto.
  - split; reflexivity.
Defined.

Lemma a_removal_is_confirmed_whatever_the_answer_holds_witness :
  run (Sample.answers (VObj [])) Demo.in_order
    (call_tool "pk_token" "clickup_delete_task" (VObj [("task_id", VStr "abc")]))
  = Fulfilled (text_result (VStr "Task abc has been deleted successfully."))
  /\ run (Sample.answers (VStr "gone")) Demo.in_order
       (call_tool "pk_token" "clickup_remove_dependency"
          (VObj [("task_id", VStr "abc"); ("depends_on", VStr "t2")]))
     = Fulfilled (text_result (VStr "Dependency removed successfully from task abc")).
Proof.
  split.
  - refine (proj1 (a_removal_is_confirmed_whatever_the_answer_holds "pk_token"
                     (Sample.answers (VObj [])) Demo.in_order
                     (VObj [("task_id", VStr "abc")]) _ _ (VObj [])) eq_refl _).
    split; reflexivity.
  - refine (proj2 (a_removal_is_confirmed_whatever_the_answer_holds "pk_token"
                     (Sample.answers (VStr "gone")) Demo.in_order
                     (VObj [("task_id", VStr "abc"); ("depends_on", VStr "t2")])
                     _ _ (VStr "gone")) eq_refl _).
    split; reflexivity.
Defined.

Lemma a_failed_request_is_reported_with_its_error_witness :
  run Demo.backend_down Demo.in_order
    (call_tool "pk_token" "clickup_add_comment"
       (VObj [("task_id", VStr "abc"); ("comment_text", VStr "done")]))
  = Fulfilled (error_result (Error Demo.not_found_message)).
Proof.
  refine (a_failed_request_is_reported_with_its_error "pk_token" Demo.backend_down
            Demo.in_order "clickup_add_comment"
            (VObj [("task_id", VStr "abc"); ("comment_text", VStr "done")])
            _ _ (Error Demo.not_found_message) eq_refl _).
  exact (api_failure
           (mkResponse 404 "Not Found"
              (Fulfilled (VObj [("err", VStr "Task not found")])))
           (VObj [("err", VStr "Task not found")]) eq_refl eq_refl).
Defined.

Lemma dependencies_are_reduced_to_four_fields_witness :
  run (Sample.answers (VObj [("id", VStr "abc"); ("name", VStr "Fix login");
                      ("status", VStr "open");
                      ("dependencies", VArr [VObj [("depends_on", VStr "t2")]])]))
    Demo.in_order
    (call_tool "pk_token" "clickup_list_dependencies" (VObj [("task_id", VStr "abc")]))
  = Fulfilled
      (text_result
         (pretty_json
            (VObj [("task_id", VStr "abc"); ("task_name", VStr "Fix login");
                   ("dependencies", VArr [VObj [("depends_on", VStr "t2")]]);
                   ("linked_tasks", VArr [])])))
  /\ exists message,
       run (Sample.answers VNull) Demo.in_order
         (call_tool "pk_token" "clickup_list_dependencies"
            (VObj [("task_id", VStr "abc")]))
       = Fulfilled (error_result (TypeError message)).
Proof.
  split.
  - refine (proj1 (dependencies_are_reduced_to_four_fields "pk_token"
                     (Sample.answers _) Demo.in_order (VObj [("task_id", VStr "abc")]) _ _
                     (VObj [("id", VStr "abc"); ("name", VStr "Fix login");
                            ("status", VStr "open");
                            ("dependencies", VArr [VObj [("depends_on", VStr "t2")]])])
                     eq_refl _) eq_refl).
    split; reflexivity.
  - refine (proj2 (dependencies_are_reduced_to_four_fields "pk_token"
                     (Sample.answers VNull) Demo.in_order (VObj [("task_id", VStr "abc")])
                     _ _ VNull eq_refl _) eq_refl).
    split; reflexivity.
Defined.

(** *** The catalog and the dispatcher *)

Lemma first_char_differs (a b : string) (x y : ascii) rest rest' :
  x <> y -> String x rest +:+ a <> String y rest' +:+ b.
Proof. intros Hxy H. cbv [String.append] in H. injection H as H _. contradiction. Qed.

(** X8: the dispatcher throws "Unknown tool: <name>" exactly for the names
    that are not in the catalog [TOOLS]: every advertised tool has its case. *)
Theorem unknown_tool_exactly_outside_the_catalog :
  forall apiToken name args,
    dispatch apiToken name args = Throw (Error ("Unknown tool: " +:+ name))
    <-> ~ In name TOOLS.
Proof.
  intros apiToken name args. split.
  - intros Hthrow Hin. unfold TOOLS in Hin. simpl in Hin.
    destruct Hin as [<-|[<-|[<-|[<-|[<-|[<-|[<-|[<-|[<-|[<-|[<-|[<-|[]]]]]]]]]]]]];
      unfold dispatch in Hthrow; cbn [String.eqb Ascii.eqb Bool.eqb] in Hthrow;
      unfold create_task, get_task, update_task, delete_task, list_tasks,
        search_tasks, add_comment, list_comments, add_dependency,
        remove_dependency, list_dependencies, get_workspace_structure in Hthrow;
      try (destruct args; cbn [prop bind] in Hthrow; discriminate Hthrow).
    destruct args; cbn [prop bind] in Hthrow; try discriminate Hthrow.
    unfold search_by_scope, searchTasks, searchTasks_queryParams in Hthrow.
    destruct (get (VObj o) "scope"); cbn [prop bind] in Hthrow;
      repeat match type of Hthrow with
             | context [if ?b then _ else _] =>
                 destruct b; cbn [prop bind] in Hthrow
             end;
      try discriminate Hthrow;
      injection Hthrow as Hmsg; revert Hmsg; apply first_char_differs; discriminate.
  - intros Hunknown. unfold dispatch.
    repeat match goal with
           | |- context [String.eqb name ?s] =>
               destruct (String.eqb_spec name s) as [->|_];
               [exfalso; apply Hunknown; simpl; tauto|]
           end.
    reflexivity.
Qed.

(** X9: a call of any tool but 'clickup_get_workspace_structure' whose
    arguments are missing ([undefined] or [null]) ends with the error result of
    a [TypeError], without any request. *)
Theorem a_call_without_arguments_is_refused_before_any_request :
  forall apiToken name args,
    In name TOOLS ->
    name <> "clickup_get_workspace_structure" ->
    non_nullish args = false ->
    exists message,
      call_tool apiToken name args = Ret (error_result (TypeError message)).
Proof.
  intros apiToken name args Hin Hname Hargs.
  unfold TOOLS in Hin. simpl in Hin.
  destruct Hin as [<-|[<-|[<-|[<-|[<-|[<-|[<-|[<-|[<-|[<-|[<-|[<-|[]]]]]]]]]]]]];
    try (now destruct Hname);
    destruct args; try discriminate Hargs; eexists; reflexivity.
Qed.

Lemma a_call_without_arguments_is_refused_before_any_request_witness :
  exists message,
    call_tool "pk_token" "clickup_delete_task" VUndef
    = Ret (error_result (TypeError message)).
Proof.
  apply (a_call_without_arguments_is_refused_before_any_request
           "pk_token" "clickup_delete_task" VUndef).
  - simpl. tauto.
  - discriminate.
  - reflexivity.
Defined.



(** *** What the tools send *)

(** X11: 'clickup_create_task' sends a POST to "/list/<list_id>/task" whose
    body has one member for each of the twelve task fields that the caller
    supplied, in the order of the fields, and nothing else: [list_id] is in
    the URL only, and a field that is missing is not written. *)
Theorem create_task_writes_the_supplied_fields_only :
  forall apiToken args,
    non_nullish args = true ->
    exists k,
      call_tool apiToken "clickup_create_task" args
      = Fetch (mkRequest "POST"
                 (baseUrl +:+ "/list/" +:+ to_string (get args "list_id") +:+ "/task")
                 [] (headers apiToken)
                 (Some ("{" +:+ join ","
                                  (flat_map (fun field => member field (get args field))
                                     create_task_fields)
                            +:+ "}"))) k.
Proof.
  intros apiToken args Hargs.
  unfold call_tool, dispatch. cbn [String.eqb Ascii.eqb Bool.eqb].
  unfold create_task, createTask.
  assert (Hprop : prop args "list_id" = Ret (get args "list_id"))
    by (destruct args; try discriminate; reflexivity).
  rewrite Hprop. cbn [bind]. unfold request. cbn [bind try_catch truthy].
  rewrite stringify_object. eexists. reflexivity.
Qed.

Lemma create_task_writes_the_supplied_fields_only_witness :
  exists k,
    call_tool "pk_token" "clickup_create_task"
      (VObj [("list_id", VStr "901"); ("name", VStr "Fix login");
             ("priority", VNum 2); ("tags", VArr [VStr "bug"])])
    = Fetch (mkRequest "POST" "https://api.clickup.com/api/v2/list/901/task" []
               (headers "pk_token")
               (Some ("{" +:+ dq +:+ "name" +:+ dq +:+ ":" +:+ dq +:+ "Fix login" +:+ dq
                        +:+ "," +:+ dq +:+ "tags" +:+ dq +:+ ":[" +:+ dq +:+ "bug" +:+ dq
                        +:+ "]," +:+ dq +:+ "priority" +:+ dq +:+ ":2}"))) k.
Proof.
  exact (create_task_writes_the_supplied_fields_only "pk_token"
           (VObj [("list_id", VStr "901"); ("name", VStr "Fix login");
                  ("priority", VNum 2); ("tags", VArr [VStr "bug"])]) eq_refl).
Defined.

(** X12: 'clickup_remove_dependency' sends a DELETE without body, built from
    "/task/<task_id>/dependency"; the pairs it appends to [url.searchParams]
    are those of [depends_on] and of [dependency_of] that were supplied, in
    that order, and none when neither was. What the text of [task_id] itself
    adds to the URL, when it holds "?" or "#", is outside this statement. *)
Theorem remove_dependency_appends_the_supplied_directions :
  forall apiToken args,
    non_nullish args = true ->
    exists k,
      call_tool apiToken "clickup_remove_dependency" args
      = Fetch (mkRequest "DELETE"
                 (baseUrl +:+ "/task/" +:+ to_string (get args "task_id")
                    +:+ "/dependency")
                 (append_param ("depends_on", get args "depends_on")
                    ++ append_param ("dependency_of", get args "dependency_of"))
                 (headers apiToken) None) k.
Proof.
  intros apiToken args Hargs.
  unfold call_tool, dispatch. cbn [String.eqb Ascii.eqb Bool.eqb].
  unfold remove_dependency, deleteDependency.
  assert (Hprop : prop args "task_id" = Ret (get args "task_id"))
    by (destruct args; try discriminate; reflexivity).
  rewrite Hprop. cbn [bind]. unfold request, dependency_request.
  cbn [bind try_catch truthy]. rewrite searchParams_object.
  cbn [flat_map]. rewrite app_nil_r. eexists. reflexivity.
Qed.

Lemma remove_dependency_appends_the_supplied_directions_witness :
  (exists k,
      call_tool "pk_token" "clickup_remove_dependency"
        (VObj [("task_id", VStr "t1"); ("dependency_of", VStr "t9")])
      = Fetch (mkRequest "DELETE"
                 "https://api.clickup.com/api/v2/task/t1/dependency"
                 [("dependency_of", "t9")] (headers "pk_token") None) k)
  /\ exists k,
       call_tool "pk_token" "clickup_remove_dependency" (VObj [("task_id", VStr "t1")])
       = Fetch (mkRequest "DELETE"
                  "https://api.clickup.com/api/v2/task/t1/dependency"
                  [] (headers "pk_token") None) k.
Proof.
  split.
  - exact (remove_dependency_appends_the_supplied_directions "pk_token"
             (VObj [("task_id", VStr "t1"); ("dependency_of", VStr "t9")]) eq_refl).
  - exact (remove_dependency_appends_the_supplied_directions "pk_token"
             (VObj [("task_id", VStr "t1")]) eq_refl).
Defined.

(** *** The filters of a listing and of a search *)

(** X13: the query object of [listTasks] reads, at every key, as the
    parameters do, except that [archived], [page] and [include_closed] read
    [false], [0] and [false] when they are [undefined] or [null]; a value
    that is set, [false] and [0] included, is kept. The same for
    [searchTasks] with [page] and [include_closed]; its [archived] reads as
    given. *)
Theorem filters_pass_through_except_unset_defaults :
  forall (o : obj) k,
    get (listTasks_queryParams (VObj o)) k
    = (if String.eqb k "archived" then nullish_or (get (VObj o) k) (VBool false)
       else if String.eqb k "page" then nullish_or (get (VObj o) k) (VNum 0)
       else if String.eqb k "include_closed"
            then nullish_or (get (VObj o) k) (VBool false)
       else get (VObj o) k)
    /\ exists queryParams,
         searchTasks_queryParams (VObj o) = Ret queryParams
         /\ get queryParams k
            = (if String.eqb k "page" then nullish_or (get (VObj o) k) (VNum 0)
               else if String.eqb k "include_closed"
                    then nullish_or (get (VObj o) k) (VBool false)
               else get (VObj o) k).
Proof.
  intros o k. split.
  - unfold listTasks_queryParams. cbn [spread_with fold_left fst snd own_props get].
    rewrite !lookup_set_prop.
    rewrite (String.eqb_sym "archived"), (String.eqb_sym "page"),
      (String.eqb_sym "include_closed").
    destruct (String.eqb_spec k "archived") as [->|_]; [reflexivity|].
    destruct (String.eqb_spec k "page") as [->|_]; [reflexivity|].
    destruct (String.eqb_spec k "include_closed") as [->|_]; reflexivity.
  - unfold searchTasks_queryParams. cbn [prop bind]. eexists. split; [reflexivity|].
    cbn [spread_with fold_left fst snd own_props get].
    rewrite !lookup_set_prop.
    rewrite (String.eqb_sym "page"), (String.eqb_sym "include_closed").
    destruct (String.eqb_spec k "page") as [->|_]; [reflexivity|].
    destruct (String.eqb_spec k "include_closed") as [->|_]; reflexivity.
Qed.

Lemma append_param_names key v name :
  In name (map fst (append_param (key, v))) ->
  (name = key /\ is_array v = false) \/ (name = key +:+ "[]" /\ is_array v = true).
Proof.
  unfold append_param. destruct (non_nullish v); [|intros []].
  destruct v; cbn [map fst In is_array];
    try (intros [<-|[]]; left; split; reflexivity).
  rewrite map_map. cbn [fst]. intros Hin. apply in_map_iff in Hin.
  destruct Hin as (x & <- & _). right. split; reflexivity.
Qed.

Lemma searchParams_names (o : obj) name :
  In name (map fst (searchParams (VObj o))) ->
  exists key v,
    In (key, v) o
    /\ ((name = key /\ is_array v = false)
        \/ (name = key +:+ "[]" /\ is_array v = true)).
Proof.
  rewrite searchParams_object. intros Hin.
  apply in_map_iff in Hin. destruct Hin as ([n s] & Hn & Hin). cbn [fst] in Hn. subst n.
  apply in_flat_map in Hin. destruct Hin as ([key v] & Hkv & Hin).
  exists key, v. split; [exact Hkv|].
  apply append_param_names. apply in_map_iff. now exists (name, s).
Qed.

Ltac named k :=
  exists k; split; [simpl; tauto | first [left; reflexivity | right; reflexivity]].

(** X14: the pairs that a 'clickup_list_tasks' request appends to
    [url.searchParams] are named after its eight filters (the filter, or the
    filter followed by "[]"); those that a 'clickup_search_tasks' request
    appends are named after its eight filters or are one of [space_ids[]],
    [folder_ids[]], [list_ids[]]. No other argument of the call ([scope],
    [team_id], an unknown key) is appended as a parameter. What the text of an
    identifier in the path adds to the URL is outside this statement. *)
Theorem only_the_known_filters_are_appended_to_the_query :
  forall apiToken args req name,
    (first_request (call_tool apiToken "clickup_list_tasks" args) = Some req ->
     In name (map fst (req_searchParams req)) ->
     named_after list_filter_fields name)
    /\ (first_request (call_tool apiToken "clickup_search_tasks" args) = Some req ->
        In name (map fst (req_searchParams req)) ->
        named_after search_filter_fields name
        \/ In name ["space_ids[]"; "folder_ids[]"; "list_ids[]"]).
Proof.
  intros apiToken args req name. split; intros Hreq Hname.
  - unfold call_tool, dispatch in Hreq. cbn [String.eqb Ascii.eqb Bool.eqb] in Hreq.
    unfold list_tasks, listTasks in Hreq.
    destruct args; cbn [prop bind try_catch first_request] in Hreq;
      try discriminate Hreq;
      unfold request in Hreq; cbn [bind try_catch first_request] in Hreq;
      injection Hreq as <-; cbn [req_searchParams] in Hname;
      unfold listTasks_queryParams in Hname;
      cbn [spread_with fold_left fst snd own_props set_prop String.eqb Ascii.eqb
             Bool.eqb] in Hname;
      apply searchParams_names in Hname;
      destruct Hname as (key & v & Hin & Hcase);
      simpl in Hin;
      repeat (destruct Hin as [Hin|Hin]; [injection Hin as <- <-|]);
      try destruct Hin;
      destruct Hcase as [[-> _]|[-> _]];
      first [ named "page" | named "archived" | named "include_closed"
            | named "assignees" | named "statuses" | named "tags"
            | named "due_date_gt" | named "due_date_lt" ].
  - unfold call_tool, dispatch in Hreq. cbn [String.eqb Ascii.eqb Bool.eqb] in Hreq.
    unfold search_tasks, search_by_scope, searchTasks, searchTasks_queryParams in Hreq.
    destruct args; cbn [prop bind try_catch first_request] in Hreq;
      try discriminate Hreq.
    all: match type of Hreq with
         | context [get ?a "scope"] => destruct (get a "scope")
         end;
      cbn [prop bind try_catch first_request] in Hreq; try discriminate Hreq.
    all: repeat match type of Hreq with
                | context [if ?b then _ else _] =>
                    destruct b; cbn [prop bind try_catch first_request] in Hreq;
                    try discriminate Hreq
                end.
    all: unfold request in Hreq; cbn [bind try_catch first_request] in Hreq;
      injection Hreq as <-; cbn [req_searchParams] in Hname;
      unfold search_params in Hname;
      cbn [spread_with fold_left fst snd own_props set_prop String.eqb Ascii.eqb
             Bool.eqb] in Hname;
      apply searchParams_names in Hname;
      destruct Hname as (key & v & Hin & Hcase);
      simpl in Hin;
      repeat (destruct Hin as [Hin|Hin]; [injection Hin as <- <-|]);
      try destruct Hin;
      destruct Hcase as [[-> Harr]|[-> Harr]];
      try discriminate Harr;
      first [ right; simpl; tauto
            | left;
              first [ named "query" | named "page" | named "include_closed"
                    | named "assignees" | named "statuses" | named "tags"
                    | named "due_date_gt" | named "due_date_lt" ] ].
Qed.

Lemma searchParams_pairs (o : obj) name value :
  In (name, value) (searchParams (VObj o)) ->
  exists key v, In (key, v) o /\ In (name, value) (append_param (key, v)).
Proof.
  rewrite searchParams_object. intros Hin. apply in_flat_map in Hin.
  destruct Hin as ([key v] & Hkv & Hin). eauto.
Qed.

Lemma filter_is_no_narrowing_parameter key v name value :
  In key search_filter_fields ->
  In (name, value) (append_param (key, v)) ->
  ~ In name narrowing_parameters.
Proof.
  intros Hkey Hin Hname.
  assert (Hn : In name (map fst (append_param (key, v))))
    by (apply in_map_iff; now exists (name, value)).
  apply append_param_names in Hn.
  unfold search_filter_fields in Hkey. simpl in Hkey.
  destruct Hkey as [<-|[<-|[<-|[<-|[<-|[<-|[<-|[<-|[]]]]]]]]];
    destruct Hn as [[-> _]|[-> _]]; cbv in Hname;
    destruct Hname as [H|[H|[H|[]]]]; discriminate H.
Qed.

Ltac filter_entry H :=
  exfalso;
  match type of H with
  | In _ (append_param (?key, _)) =>
      refine (filter_is_no_narrowing_parameter key _ _ _ _ H _);
      [simpl; tauto | assumption]
  end.

(** X15: among the pairs named [space_ids[]], [folder_ids[]] and [list_ids[]],
    a search with the scope "space", "folder" or "list" appends to
    [url.searchParams] the one of its scope, with the identifier of the scope,
    and no other, whatever other identifiers the caller passed; a search with
    the scope "workspace" appends none of the three. What the text of
    [team_id] in the path adds to the URL is outside this statement. *)
Theorem a_search_appends_the_parameter_of_its_scope_only :
  forall apiToken args,
    (forall scope key parameter,
        In (scope, key, parameter) scope_narrowing ->
        get args "scope" = VStr scope ->
        truthy (get args key) = true ->
        exists req k,
          call_tool apiToken "clickup_search_tasks" args = Fetch req k
          /\ forall name value,
               In name narrowing_parameters ->
               (In (name, value) (req_searchParams req)
                <-> name = parameter /\ value = to_string (get args key)))
    /\ (get args "scope" = VStr "workspace" ->
        truthy (get args "team_id") = true ->
        exists req k,
          call_tool apiToken "clickup_search_tasks" args = Fetch req k
          /\ forall name value,
               In name narrowing_parameters ->
               ~ In (name, value) (req_searchParams req)).
Proof.
  intros apiToken args. split.
  - intros scope key parameter Hin Hscope Htruthy.
    destruct (get_is_string_object _ _ _ Hscope) as [o ->].
    unfold call_tool. rewrite dispatch_search_tasks.
    unfold search_tasks. cbn [prop bind]. unfold search_by_scope.
    rewrite Hscope. unfold scope_narrowing in Hin. simpl in Hin.
    destruct Hin as [H|[H|[H|[]]]]; injection H as <- <- <-;
      cbn [String.eqb Ascii.eqb Bool.eqb]; rewrite Htruthy;
      (eexists; eexists; split; [reflexivity|]);
      cbn [req_searchParams]; unfold search_params;
      cbn [spread_with fold_left fst snd own_props set_prop String.eqb Ascii.eqb
             Bool.eqb];
      intros name value Hname; split.
    all: try (intros Hpair; apply searchParams_pairs in Hpair;
              destruct Hpair as (k0 & v0 & Hentry & Hpair);
              simpl in Hentry;
              repeat (destruct Hentry as [Hentry|Hentry];
                      [injection Hentry as <- <-; try filter_entry Hpair|]);
              [|destruct Hentry];
              cbn [append_param non_nullish map In] in Hpair;
              destruct Hpair as [Hpair|[]]; injection Hpair as <- <-;
              split; reflexivity).
    all: intros [-> ->];
      first [ refine (searchParams_has_element _ "space_ids" [_] _ _ _)
            | refine (searchParams_has_element _ "folder_ids" [_] _ _ _)
            | refine (searchParams_has_element _ "list_ids" [_] _ _ _) ];
      [reflexivity | now left].
  - intros Hscope Htruthy.
    destruct (get_is_string_object _ _ _ Hscope) as [o ->].
    unfold call_tool. rewrite dispatch_search_tasks.
    unfold search_tasks. cbn [prop bind]. unfold search_by_scope.
    rewrite Hscope. cbn [String.eqb Ascii.eqb Bool.eqb]. rewrite Htruthy.
    eexists. eexists. split; [reflexivity|].
    cbn [req_searchParams]. unfold search_params.
    cbn [spread_with fold_left fst snd own_props set_prop String.eqb Ascii.eqb
           Bool.eqb].
    intros name value Hname Hpair. apply searchParams_pairs in Hpair.
    destruct Hpair as (k0 & v0 & Hentry & Hpair). simpl in Hentry.
    repeat (destruct Hentry as [Hentry|Hentry];
            [injection Hentry as <- <-; filter_entry Hpair|]).
    destruct Hentry.
Qed.

(** *** Partial failures while the workspace is read *)

Lemma filter_all {A : Type} (l : list A) : List.filter (fun _ => true) l = l.
Proof. induction l as [|x l IH]; [reflexivity|]. cbn [List.filter]. now rewrite IH. Qed.

Section SpaceFailures.
Variable apiToken : string.
Variable fetch : Request -> FetchOutcome.
Variable completion : list (Settled value) -> list nat.

Local Abbreviation run := (Async.run fetch completion).

Lemma run_getFolders_absorbed spaceId e :
  fails_with
    (fetch (GET apiToken ("/space/" +:+ to_string spaceId +:+ "/folder")
              [("archived", "false")])) e ->
  run (getFolders apiToken spaceId VUndef) = Fulfilled (VObj [("folders", VArr [])]).
Proof.
  intros H.
  change (getFolders apiToken spaceId VUndef)
    with (try_catch
            (request apiToken "GET" ("/space/" +:+ to_string spaceId +:+ "/folder")
               VUndef (VObj [("archived", VBool false)]))
            (fun _ => Ret (VObj [("folders", VArr [])]))).
  rewrite run_try_catch.
  now rewrite (run_request_fails apiToken fetch completion "GET" _ VUndef
                 (VObj [("archived", VBool false)]) e H).
Qed.

(** X16: in [getWorkspaceStructure], a space whose request for folders fails
    and whose request for lists is served appears with [folders: []] and with
    all its lists under [lists]. *)
Theorem a_space_whose_folders_fail_keeps_all_its_lists :
  forall (space : obj) (all : list obj) e,
    fails_with
      (fetch (GET apiToken
                ("/space/" +:+ to_string (get (VObj space) "id") +:+ "/folder")
                [("archived", "false")])) e ->
    serves fetch
      (GET apiToken ("/space/" +:+ to_string (get (VObj space) "id") +:+ "/list") [])
      (keyed "lists" all) ->
    run (space_with_folders_and_lists apiToken (VObj space))
    = Fulfilled
        (VObj (spread_with (VObj space)
                 [("folders", VArr []); ("lists", VArr (map VObj all))])).
Proof.
  intros space all e Hfolders Hlists.
  unfold space_with_folders_and_lists. cbn [prop bind].
  rewrite (run_bind_fulfilled _ _ _ _ _ (run_getFolders_absorbed _ _ Hfolders)).
  cbn [destructure get lookup_prop String.eqb Ascii.eqb Bool.eqb as_array bind
         map_sync].
  rewrite (run_bind_fulfilled _ _ _ _ _
             (run_request_serves apiToken fetch completion "GET" _ VUndef VUndef
                _ Hlists)).
  unfold keyed at 1.
  cbn [destructure get lookup_prop String.eqb Ascii.eqb Bool.eqb as_array bind
         concat].
  rewrite (filter_sync_pure _ VObj (fun _ => true)); [|reflexivity].
  cbn [bind Async.run]. now rewrite filter_all.
Qed.

Lemma run_space_rejected (space : obj) (folders : list obj) e :
  (exists e', fails_with
                (fetch (GET apiToken
                          ("/space/" +:+ to_string (get (VObj space) "id") +:+ "/folder")
                          [("archived", "false")])) e')
  \/ (serves fetch
        (GET apiToken ("/space/" +:+ to_string (get (VObj space) "id") +:+ "/folder")
           [("archived", "false")])
        (keyed "folders" folders)
      /\ forallb folder_ok folders = true) ->
  fails_with
    (fetch (GET apiToken
              ("/space/" +:+ to_string (get (VObj space) "id") +:+ "/list") [])) e ->
  run (space_with_folders_and_lists apiToken (VObj space)) = Rejected e.
Proof.
  intros Hfolders Hlists.
  pose proof (run_request_fails apiToken fetch completion "GET" _ VUndef VUndef
                e Hlists) as Hrejected.
  unfold space_with_folders_and_lists. cbn [prop bind].
  destruct Hfolders as [[e' Hfail]|[Hserved Hok]].
  - rewrite (run_bind_fulfilled _ _ _ _ _ (run_getFolders_absorbed _ _ Hfail)).
    cbn [destructure get lookup_prop String.eqb Ascii.eqb Bool.eqb as_array bind
           map_sync].
    now apply run_bind_rejected.
  - rewrite forallb_forall in Hok.
    rewrite (run_bind_fulfilled _ _ _ _ _
               (run_getFolders_serves apiToken fetch completion _ _ Hserved)).
    unfold keyed at 1.
    cbn [destructure get lookup_prop String.eqb Ascii.eqb Bool.eqb as_array bind].
    rewrite (map_sync_pure folder_with_lists VObj tree_folder);
      [|intros f Hf; apply folder_with_lists_ok; now apply Hok].
    cbn [bind]. now apply run_bind_rejected.
Qed.

(** X17: when the teams and the spaces of a team are served and the request
    for the lists of one of those spaces fails, 'clickup_get_workspace_structure'
    returns an error result and no partial tree, whether the folders of that
    space were served or not. *)
Theorem a_failed_list_request_fails_the_whole_structure :
  forall (teams : list obj) (spaces_of : obj -> list obj) (folders : list obj)
         (team space : obj) args e,
    serves fetch (GET apiToken "/team" []) (keyed "teams" teams) ->
    serves fetch
      (GET apiToken ("/team/" +:+ to_string (get (VObj team) "id") +:+ "/space") [])
      (keyed "spaces" (spaces_of team)) ->
    In team teams -> In space (spaces_of team) ->
    (exists e', fails_with
                  (fetch (GET apiToken
                            ("/space/" +:+ to_string (get (VObj space) "id")
                               +:+ "/folder")
                            [("archived", "false")])) e')
    \/ (serves fetch
          (GET apiToken ("/space/" +:+ to_string (get (VObj space) "id") +:+ "/folder")
             [("archived", "false")])
          (keyed "folders" folders)
        /\ forallb folder_ok folders = true) ->
    fails_with
      (fetch (GET apiToken
                ("/space/" +:+ to_string (get (VObj space) "id") +:+ "/list") [])) e ->
    exists e',
      run (call_tool apiToken "clickup_get_workspace_structure" args)
      = Fulfilled (error_result e').
Proof.
  intros teams spaces_of folders team space args e
    Hteams Hspaces Hteam Hspace Hfolders Hlists.
  destruct (run_getWorkspaceStructure_rejected apiToken fetch completion teams
              spaces_of team space e Hteams Hspaces Hteam Hspace
              (run_space_rejected space folders e Hfolders Hlists)) as [e' He'].
  exists e'. unfold call_tool. rewrite run_try_catch.
  unfold dispatch. cbn [String.eqb Ascii.eqb Bool.eqb].
  unfold get_workspace_structure.
  now rewrite (run_bind_rejected _ _ _ _ _ He').
Qed.
End SpaceFailures.

Lemma a_tool_call_other_than_the_structure_sends_one_request_at_most_witness :
  at_most_one_request
    (call_tool "pk_token" "clickup_update_task" Demo.rename_and_untag).
Proof.
  apply (a_tool_call_other_than_the_structure_sends_one_request_at_most
           "pk_token" "clickup_update_task" Demo.rename_and_untag).
  discriminate.
Defined.

Lemma unknown_tool_exactly_outside_the_catalog_witness :
  dispatch "pk_token" "clickup_archive_task" (VObj [("task_id", VStr "abc")])
  = Throw (Error "Unknown tool: clickup_archive_task").
Proof.
  apply (proj2 (unknown_tool_exactly_outside_the_catalog "pk_token"
                  "clickup_archive_task" (VObj [("task_id", VStr "abc")]))).
  simpl. intuition discriminate.
Defined.

Lemma only_the_known_filters_are_appended_to_the_query_witness :
  named_after search_filter_fields "tags[]"
  \/ In "tags[]" ["space_ids[]"; "folder_ids[]"; "list_ids[]"].
Proof.
  refine (proj2 (only_the_known_filters_are_appended_to_the_query "pk_token"
                   Sample.a_search_in_a_folder _ "tags[]") eq_refl _).
  simpl. tauto.
Defined.

Lemma a_search_appends_the_parameter_of_its_scope_only_witness :
  exists req k,
    call_tool "pk_token" "clickup_search_tasks" Sample.a_search_in_a_folder
    = Fetch req k
    /\ forall name value,
         In name narrowing_parameters ->
         (In (name, value) (req_searchParams req)
          <-> name = "folder_ids[]" /\ value = "77").
Proof.
  refine (proj1 (a_search_appends_the_parameter_of_its_scope_only
                   "pk_token" Sample.a_search_in_a_folder)
            "folder" "folder_id" "folder_ids[]" _ eq_refl eq_refl).
  simpl. tauto.
Defined.

Lemma a_space_whose_folders_fail_keeps_all_its_lists_witness :
  run (Sample.without_folders (keyed "lists" [Demo.L1; Demo.L2])) Demo.in_order
    (space_with_folders_and_lists "pk_token" (VObj Demo.S))
  = Fulfilled
      (VObj [("id", VStr "S"); ("name", VStr "Space"); ("folders", VArr []);
             ("lists", VArr [VObj Demo.L1; VObj Demo.L2])]).
Proof.
  refine (a_space_whose_folders_fail_keeps_all_its_lists "pk_token"
            (Sample.without_folders (keyed "lists" [Demo.L1; Demo.L2]))
            Demo.in_order Demo.S [Demo.L1; Demo.L2] _ _ _).
  - exact (api_failure
             (mkResponse 403 "Forbidden"
                (Fulfilled (VObj [("err", VStr "Folders are off")])))
             (VObj [("err", VStr "Folders are off")]) eq_refl eq_refl).
  - split; reflexivity.
Defined.

Lemma a_failed_list_request_fails_the_whole_structure_witness :
  exists e,
    run Sample.lists_down Demo.last_first
      (call_tool "pk_token" "clickup_get_workspace_structure" VUndef)
    = Fulfilled (error_result e).
Proof.
  refine (a_failed_list_request_fails_the_whole_structure "pk_token"
            Sample.lists_down Demo.last_first [Demo.T1] (fun _ => [Demo.S]) []
            Demo.T1 Demo.S VUndef (Error Demo.not_found_message) _ _ _ _ _ _).
  - split; reflexivity.
  - split; reflexivity.
  - simpl. tauto.
  - simpl. tauto.
  - left. exists (Error Demo.not_found_message).
    exact (api_failure
             (mkResponse 404 "Not Found"
                (Fulfilled (VObj [("err", VStr "Task not found")])))
             (VObj [("err", VStr "Task not found")]) eq_refl eq_refl).
  - exact (api_failure
             (mkResponse 404 "Not Found"
                (Fulfilled (VObj [("err", VStr "Task not found")])))
             (VObj [("err", VStr "Task not found")]) eq_refl eq_refl).
Defined.

(** *** The method of each tool *)

Lemma every_request_request_with (P : Request -> Prop) apiToken method path body
    queryParams :
  P (mkRequest method (baseUrl +:+ path) (searchParams queryParams)
       (headers apiToken) (if truthy body then JSON_stringify body else None)) ->
  every_request P (request apiToken method path body queryParams).
Proof.
  intros HP. unfold request. split; [exact HP|].
  intros [e|r]; [exact I|].
  destruct (resp_json r); [|exact I]. now destruct (negb (resp_ok r)).
Qed.

Ltac method_step :=
  first
    [ exact I
    | apply every_request_prop
    | apply every_request_destructure
    | apply every_request_as_array
    | apply every_request_request_with; reflexivity
    | apply every_request_bind; [|intros ?]
    | apply every_request_try_catch; [|intros ?]
    | apply every_request_map_sync; intros ?
    | apply every_request_filter_sync; intros ?
    | apply every_request_promise_all; intros ?
    | match goal with
      | |- every_request _ (if ?b then _ else _) => destruct b
      | |- every_request _ (match ?v with _ => _ end) => destruct v
      end ].

(** X18: every request that a tool call can send uses the one HTTP method of
    that tool: GET for the six tools that read (the workspace structure
    included, for all its requests), POST for the three that add, PUT for the
    update and DELETE for the two that remove. *)
Theorem a_tool_sends_requests_of_its_method_only :
  forall apiToken name method args,
    In (name, method) tool_methods ->
    every_request (fun req => req_method req = method)
      (call_tool apiToken name args).
Proof.
  intros apiToken name method args Hin. unfold tool_methods in Hin. simpl in Hin.
  destruct Hin as [H|[H|[H|[H|[H|[H|[H|[H|[H|[H|[H|[H|[]]]]]]]]]]]]];
    injection H as <- <-;
    unfold call_tool, dispatch; cbn [String.eqb Ascii.eqb Bool.eqb];
    (apply every_request_try_catch; [|intros e; exact I]);
    unfold create_task, createTask, get_task, getTask, update_task, updateTask,
      delete_task, deleteTask, list_tasks, listTasks, search_tasks,
      search_by_scope, searchTasks, searchTasks_queryParams, add_comment,
      createComment, list_comments, getComments, add_dependency, addDependency,
      remove_dependency, deleteDependency, list_dependencies,
      getTaskWithDependencies, getTask, get_workspace_structure,
      getWorkspaceStructure, getAuthorizedTeams, team_with_spaces, getSpaces,
      space_with_folders_and_lists, getFolders, getLists, folder_with_lists,
      list_ids_of_folder, lists_of_folder, id_and_name;
    repeat method_step.
Qed.

Lemma a_tool_sends_requests_of_its_method_only_witness :
  every_request (fun req => req_method req = "GET")
    (call_tool "pk_token" "clickup_get_workspace_structure" VUndef).
Proof.
  apply (a_tool_sends_requests_of_its_method_only "pk_token"
           "clickup_get_workspace_structure" "GET" VUndef).
  simpl. tauto.
Defined.

(** X19: 'clickup_add_comment' sends a POST to "/task/<task_id>/comment" whose
    body has a member for each of [comment_text], [assignee] and [notify_all]
    that the caller supplied, and nothing else. *)
Theorem add_comment_writes_the_supplied_fields_only :
  forall apiToken args,
    non_nullish args = true ->
    exists k,
      call_tool apiToken "clickup_add_comment" args
      = Fetch (mkRequest "POST"
                 (baseUrl +:+ "/task/" +:+ to_string (get args "task_id") +:+ "/comment")
                 [] (headers apiToken)
                 (Some ("{" +:+ join ","
                                  (member "comment_text" (get args "comment_text")
                                     ++ member "assignee" (get args "assignee")
                                     ++ member "notify_all" (get args "notify_all"))
                            +:+ "}"))) k.
Proof.
  intros apiToken args Hargs.
  unfold call_tool, dispatch. cbn [String.eqb Ascii.eqb Bool.eqb].
  unfold add_comment, createComment.
  assert (Hprop : prop args "task_id" = Ret (get args "task_id"))
    by (destruct args; try discriminate; reflexivity).
  rewrite Hprop. cbn [bind]. unfold request. cbn [bind try_catch truthy].
  rewrite stringify_object. cbn [flat_map fst snd]. rewrite app_nil_r.
  eexists. reflexivity.
Qed.

Lemma add_comment_writes_the_supplied_fields_only_witness :
  exists k,
    call_tool "pk_token" "clickup_add_comment"
      (VObj [("task_id", VStr "abc"); ("comment_text", VStr "done");
             ("notify_all", VBool true)])
    = Fetch (mkRequest "POST" "https://api.clickup.com/api/v2/task/abc/comment" []
               (headers "pk_token")
               (Some ("{" +:+ dq +:+ "comment_text" +:+ dq +:+ ":" +:+ dq +:+ "done" +:+ dq
                        +:+ "," +:+ dq +:+ "notify_all" +:+ dq +:+ ":true}"))) k.
Proof.
  exact (add_comment_writes_the_supplied_fields_only "pk_token"
           (VObj [("task_id", VStr "abc"); ("comment_text", VStr "done");
                  ("notify_all", VBool true)]) eq_refl).
Defined.
